(** * AlumTrack: the stock allocation of [optimizer.py]

    A shallow embedding of [calculate_optimal_mix] (optimizer.py) over the
    records of models.py, and the properties of the plan it returns.

    Session.  The rows of the database are objects held by the session; the
    optimizer works on references to them.  [calculate_optimal_mix] is
    written in a state-passing style over the session, so that what it
    reads, and that it writes nothing, is part of the model.  [allocate] is
    the same computation as a function of the rows selected, the form in
    which the specification states the engine; the two are proved to agree
    ([calculate_optimal_mix_allocate]), and the properties of the plan are
    stated on [allocate].

    Numbers.  The Python code computes on [float].  Every finite float is a
    rational, so quantities, prices and costs are first values of [Q]; [+],
    [-], [*] and the comparisons are the exact ones, i.e. the computation is
    given without rounding.  Equalities between computed amounts are stated
    with [==] ([Qeq]) unless the two sides are built by the same operations.
    What compares sums of amounts (completeness, the shortfall lines, cost
    minimality) does depend on rounding: for it [Binary64.allocate] gives
    the optimizer on binary64 numbers, and the two are related by
    [exact_run_allocate]: on a run in which no operation rounds, the result
    of the float code is, value by value, the result on the rationals.

    Dictionaries.  [target_by_alloy] and [inventory] are Python dicts, which
    iterate in the order in which keys were first inserted; the order of the
    result depends on it, so they are association lists with distinct keys
    kept in insertion order. *)

From Stdlib Require Import List String ZArith QArith Bool Lqa.
From Stdlib Require Import Permutation Sorted.
From Stdlib Require Import Floats Lia.
Import ListNotations.

Open Scope Q_scope.

(** * Definitions *)

(** ** models.py *)

Record date := mkDate { year_of : Z; month_of : Z; day_of : Z }.

Module Purchase.
Record t := mk {
  alloy_type : string;
  purity : Q;
  quantity_kg : Q;
  price_per_kg : Q;
  purchase_date : date;
  supplier : option string;
  notes : option string;
  id : option Z;
  remaining_quantity_kg : Q
}.
End Purchase.

Module SalesTarget.
Record t := mk {
  alloy_type : string;
  target_quantity_kg : Q;
  month : Z;
  year : Z;
  id : option Z
}.
End SalesTarget.

(** ** Python values used by the optimizer *)

Definition Qltb (x y : Q) : bool := negb (Qle_bool y x).

(** [min(a, b)] of Python: [b] when [b < a], otherwise [a]. *)
Definition py_min (a b : Q) : Q := if Qltb b a then b else a.

(** A [defaultdict] with string keys. *)
Definition dict (V : Type) : Type := list (string * V).

Fixpoint dict_get {V} (d : dict V) (k : string) : option V :=
  match d with
  | [] => None
  | (k', v) :: d' => if String.eqb k k' then Some v else dict_get d' k
  end.

(** [d[k] = f(d[k])] on a [defaultdict] whose factory returns [dflt]: a
    missing key is first inserted (at the end) with the default. *)
Fixpoint dict_update {V} (dflt : V) (f : V -> V) (k : string) (d : dict V)
  : dict V :=
  match d with
  | [] => [(k, f dflt)]
  | (k', v) :: d' =>
      if String.eqb k k' then (k', f v) :: d'
      else (k', v) :: dict_update dflt f k d'
  end.

(** [d.get(k, [])] *)
Definition dict_get_list {V} (d : dict (list V)) (k : string) : list V :=
  match dict_get d k with
  | Some l => l
  | None => []
  end.

(** [sorted(l, key=key)] on computed keys: ascending in [key] and stable,
    so an element goes behind the elements already placed whose key is not
    larger.  Python guarantees stability, and a stable sort has one possible
    outcome. *)
Fixpoint insert_by {A : Type} (key : A -> Q) (x : A) (l : list A) : list A :=
  match l with
  | [] => [x]
  | y :: l' =>
      if Qltb (key y) (key x) then y :: insert_by key x l' else x :: y :: l'
  end.

Fixpoint sorted {A : Type} (key : A -> Q) (l : list A) : list A :=
  match l with
  | [] => []
  | x :: l' => insert_by key x (sorted key l')
  end.

(** ** The database session

    The rows of the two tables are objects of the session.  A query returns
    references to them, in the order of the table; the optimizer keeps
    these references in its lists and dictionaries and reads the
    attributes of the objects through them.  [purchase_at] and [target_at]
    give the object behind a reference; the references in use are those of
    the tables. *)

Definition ref : Type := nat.

Record Session := mkSession {
  purchases_table : list ref;
  purchase_at : ref -> Purchase.t;
  targets_table : list ref;
  target_at : ref -> SalesTarget.t
}.

(** Code that runs against a session: it returns a value and the session
    it leaves behind. *)
Definition DB (A : Type) : Type := Session -> A * Session.

Definition ret {A} (a : A) : DB A := fun s => (a, s).

Definition bind {A B} (m : DB A) (k : A -> DB B) : DB B :=
  fun s => let (a, s') := m s in k a s'.

Notation "x <- m ;; k" := (bind m (fun x => k))
  (at level 61, m at next level, right associativity).

(** [session.exec(select(Purchase).where(c)).all()] *)
Definition select_purchases (where_ : Purchase.t -> bool) : DB (list ref) :=
  fun s => (filter (fun o => where_ (purchase_at s o)) (purchases_table s), s).

(** [session.exec(select(SalesTarget).where(c)).all()] *)
Definition select_targets (where_ : SalesTarget.t -> bool) : DB (list ref) :=
  fun s => (filter (fun o => where_ (target_at s o)) (targets_table s), s).

(** [o.attr], for a purchase and for a sales target. *)
Definition purchase_attr {A} (attr : Purchase.t -> A) (o : ref) : DB A :=
  fun s => (attr (purchase_at s o), s).

Definition target_attr {A} (attr : SalesTarget.t -> A) (o : ref) : DB A :=
  fun s => (attr (target_at s o), s).

(** [o.remaining_quantity_kg = q], the assignment of [update_purchase]
    (main.py, line 90).  The optimizer has no such statement. *)
Definition set_remaining_quantity_kg (o : ref) (q : Q) : DB unit :=
  fun s =>
    (tt,
     {| purchases_table := purchases_table s;
        purchase_at := fun o' =>
          let p := purchase_at s o' in
          if Nat.eqb o' o then
            {| Purchase.alloy_type := Purchase.alloy_type p;
               Purchase.purity := Purchase.purity p;
               Purchase.quantity_kg := Purchase.quantity_kg p;
               Purchase.price_per_kg := Purchase.price_per_kg p;
               Purchase.purchase_date := Purchase.purchase_date p;
               Purchase.supplier := Purchase.supplier p;
               Purchase.notes := Purchase.notes p;
               Purchase.id := Purchase.id p;
               Purchase.remaining_quantity_kg := q |}
          else p;
        targets_table := targets_table s;
        target_at := target_at s |}).

(** What a turn of a loop body asks for: the next element ([continue], or
    the end of the body), or the end of the loop ([break]). *)
Inductive flow (St : Type) : Type :=
| Next (st : St)
| Break (st : St).

Arguments Next {St} st.
Arguments Break {St} st.

(** [for x in l: body], on the variables [st] that the body assigns. *)
Fixpoint for_each {X St} (l : list X) (st : St)
    (body : St -> X -> DB (flow St)) : DB St :=
  match l with
  | [] => ret st
  | x :: l' =>
      r <- body st x ;;
      match r with
      | Next st' => for_each l' st' body
      | Break st' => ret st'
      end
  end.

Fixpoint map_db {X Y} (f : X -> DB Y) (l : list X) : DB (list Y) :=
  match l with
  | [] => ret []
  | x :: l' => y <- f x ;; ys <- map_db f l' ;; ret (y :: ys)
  end.

(** [sorted(l, key=key)]: the key of each element is computed once, then
    the elements are sorted on these keys. *)
Definition sorted_db {X} (l : list X) (key : X -> DB Q) : DB (list X) :=
  keys <- map_db key l ;;
  ret (map snd (sorted fst (combine keys l))).

(** ** optimizer.py *)

(** An entry of [result["optimal_mix"]]. *)
Module Step.
Record t := mk {
  alloy_type : string;
  purchase_id : option Z;
  quantity_used_kg : Q;
  price_per_kg : Q;
  cost : Q
}.
End Step.

(** An entry of [result["to_buy"]]. *)
Module ToBuy.
Record t := mk {
  alloy_type : string;
  missing_quantity_kg : Q
}.
End ToBuy.

Record Result := mkResult {
  optimal_mix : list Step.t;
  to_buy : list ToBuy.t;
  total_cost_for_targets : Q
}.

(** Line 14, the body of the loop over the targets. *)
Definition do_target (target_by_alloy : dict Q) (t : ref)
  : DB (flow (dict Q)) :=
  alloy <- target_attr SalesTarget.alloy_type t ;;
  qty <- target_attr SalesTarget.target_quantity_kg t ;;
  ret (Next (dict_update 0 (fun v => v + qty) alloy target_by_alloy)).

(** Line 23, the body of the loop over the purchases. *)
Definition do_purchase (inventory : dict (list ref)) (p : ref)
  : DB (flow (dict (list ref))) :=
  alloy <- purchase_attr Purchase.alloy_type p ;;
  ret (Next (dict_update [] (fun l => l ++ [p]) alloy inventory)).

(** Lines 41-59, the body of the loop over the batches of one alloy.  Its
    variables are the working counter [left] and the result under
    construction. *)
Definition do_batch (alloy : string) (st : Q * Result) (b : ref)
  : DB (flow (Q * Result)) :=
  let (left, result) := st in
  if Qle_bool left 0 then ret (Break (left, result))
  else
    remaining <- purchase_attr Purchase.remaining_quantity_kg b ;;
    let use := py_min remaining left in
    if Qle_bool use 0 then ret (Next (left, result))
    else
      price <- purchase_attr Purchase.price_per_kg b ;;
      let cost := use * price in
      id <- purchase_attr Purchase.id b ;;
      price_per_kg <- purchase_attr Purchase.price_per_kg b ;;
      ret (Next
             (left - use,
              {| optimal_mix :=
                   optimal_mix result ++
                   [ {| Step.alloy_type := alloy;
                        Step.purchase_id := id;
                        Step.quantity_used_kg := use;
                        Step.price_per_kg := price_per_kg;
                        Step.cost := cost |} ];
                 to_buy := to_buy result;
                 total_cost_for_targets :=
                   total_cost_for_targets result + cost |})).

(** Lines 33-66, the body of the loop over [target_by_alloy.items()]. *)
Definition do_alloy (inventory : dict (list ref)) (result : Result)
    (item : string * Q) : DB (flow Result) :=
  let (alloy, need_qty) := item in
  batches <- sorted_db (dict_get_list inventory alloy)
               (purchase_attr Purchase.price_per_kg) ;;
  st <- for_each batches (need_qty, result) (do_batch alloy) ;;
  let (left, result') := st in
  ret (Next
         (if Qltb 0 left then
            {| optimal_mix := optimal_mix result';
               to_buy :=
                 to_buy result' ++
                 [ {| ToBuy.alloy_type := alloy;
                      ToBuy.missing_quantity_kg := left |} ];
               total_cost_for_targets := total_cost_for_targets result' |}
          else result')).

(** Lines 6-68. *)
Definition calculate_optimal_mix (year month : Z) : DB Result :=
  targets <- select_targets
               (fun t => Z.eqb (SalesTarget.year t) year
                         && Z.eqb (SalesTarget.month t) month) ;;
  target_by_alloy <- for_each targets [] do_target ;;
  purchases <- select_purchases
                 (fun p => Qltb 0 (Purchase.remaining_quantity_kg p)) ;;
  inventory <- for_each purchases [] do_purchase ;;
  for_each target_by_alloy
    {| optimal_mix := []; to_buy := []; total_cost_for_targets := 0 |}
    (do_alloy inventory).

(** ** The optimizer as a function of the rows

    The same lines, on the rows that the two queries return instead of
    references to them: [allocate demand lots] of the specification.
    [calculate_optimal_mix_allocate] below shows that this is what
    [calculate_optimal_mix] computes. *)

(** Line 14. *)
Definition add_target (d : dict Q) (t : SalesTarget.t) : dict Q :=
  dict_update 0 (fun v => v + SalesTarget.target_quantity_kg t)
    (SalesTarget.alloy_type t) d.

(** Lines 12-14. *)
Definition target_by_alloy (targets : list SalesTarget.t) : dict Q :=
  fold_left add_target targets [].

(** Line 23. *)
Definition add_purchase (d : dict (list Purchase.t)) (p : Purchase.t)
  : dict (list Purchase.t) :=
  dict_update [] (fun l => l ++ [p]) (Purchase.alloy_type p) d.

(** Lines 21-23. *)
Definition inventory (purchases : list Purchase.t) : dict (list Purchase.t) :=
  fold_left add_purchase purchases [].

(** Lines 40-59: the loop over the batches of one alloy.  It carries the
    working counter [left] and the result under construction; [break]
    returns at once and [continue] goes on with the state as it is. *)
Fixpoint use_batches (alloy : string) (batches : list Purchase.t)
    (left : Q) (result : Result) : Q * Result :=
  match batches with
  | [] => (left, result)
  | b :: batches' =>
      if Qle_bool left 0 then (left, result)
      else
        let use := py_min (Purchase.remaining_quantity_kg b) left in
        if Qle_bool use 0 then use_batches alloy batches' left result
        else
          let cost := use * Purchase.price_per_kg b in
          use_batches alloy batches' (left - use)
            {| optimal_mix :=
                 optimal_mix result ++
                 [ {| Step.alloy_type := alloy;
                      Step.purchase_id := Purchase.id b;
                      Step.quantity_used_kg := use;
                      Step.price_per_kg := Purchase.price_per_kg b;
                      Step.cost := cost |} ];
               to_buy := to_buy result;
               total_cost_for_targets := total_cost_for_targets result + cost |}
  end.

(** Lines 33-66: the body of the loop over [target_by_alloy.items()]. *)
Definition for_alloy (inv : dict (list Purchase.t)) (result : Result)
    (item : string * Q) : Result :=
  let (alloy, need_qty) := item in
  let batches := sorted Purchase.price_per_kg (dict_get_list inv alloy) in
  let (left, result') := use_batches alloy batches need_qty result in
  if Qltb 0 left then
    {| optimal_mix := optimal_mix result';
       to_buy :=
         to_buy result' ++
         [ {| ToBuy.alloy_type := alloy; ToBuy.missing_quantity_kg := left |} ];
       total_cost_for_targets := total_cost_for_targets result' |}
  else result'.

(** Lines 12-68. *)
Definition allocate (targets : list SalesTarget.t)
    (purchases : list Purchase.t) : Result :=
  fold_left (for_alloy (inventory purchases)) (target_by_alloy targets)
    {| optimal_mix := []; to_buy := []; total_cost_for_targets := 0 |}.

(** The rows that the two queries of [calculate_optimal_mix] select. *)
Definition targets_of (year month : Z) (s : Session) : list SalesTarget.t :=
  map (target_at s)
    (filter (fun o => Z.eqb (SalesTarget.year (target_at s o)) year
                      && Z.eqb (SalesTarget.month (target_at s o)) month)
       (targets_table s)).

Definition stock_of (s : Session) : list Purchase.t :=
  map (purchase_at s)
    (filter (fun o => Qltb 0 (Purchase.remaining_quantity_kg (purchase_at s o)))
       (purchases_table s)).

(** ** What is observed of an input and of a result *)

Definition same_alloy (alloy k : string) : bool := String.eqb k alloy.

(** The sum of a list of amounts. *)
Definition Qsum (l : list Q) : Q := fold_right Qplus 0 l.

(** Summed demand of a grade. *)
Definition demand_for (alloy : string) (targets : list SalesTarget.t) : Q :=
  Qsum (map SalesTarget.target_quantity_kg
          (filter (fun t => same_alloy alloy (SalesTarget.alloy_type t)) targets)).

(** The lots of a grade, in the order supplied. *)
Definition lots_of (alloy : string) (purchases : list Purchase.t)
  : list Purchase.t :=
  filter (fun p => same_alloy alloy (Purchase.alloy_type p)) purchases.


(** The steps and shortfall lines of a grade, in the order emitted. *)
Definition steps_for (alloy : string) (r : Result) : list Step.t :=
  filter (fun s => same_alloy alloy (Step.alloy_type s)) (optimal_mix r).

Definition shortfalls_for (alloy : string) (r : Result) : list ToBuy.t :=
  filter (fun s => same_alloy alloy (ToBuy.alloy_type s)) (to_buy r).


Definition used_total (steps : list Step.t) : Q :=
  Qsum (map Step.quantity_used_kg steps).



Definition lots_ok (purchases : list Purchase.t) : Prop :=
  Forall (fun p => 0 <= Purchase.price_per_kg p
                   /\ 0 < Purchase.remaining_quantity_kg p) purchases.

(** Lot identities are those of a primary key: no two lots share one. *)
Definition ids_distinct (purchases : list Purchase.t) : Prop :=
  NoDup (map Purchase.id purchases).

(** Equality of lot identities. *)
Definition same_lot (i j : option Z) : bool :=
  match i, j with
  | Some x, Some y => Z.eqb x y
  | None, None => true
  | _, _ => false
  end.

(** The steps that reference a lot identity. *)
Definition steps_on (i : option Z) (steps : list Step.t) : list Step.t :=
  filter (fun s => same_lot (Step.purchase_id s) i) steps.

Definition step_ref (s : Step.t) : option Z * Q :=
  (Step.purchase_id s, Step.price_per_kg s).

Definition lot_ref (b : Purchase.t) : option Z * Q :=
  (Purchase.id b, Purchase.price_per_kg b).

Definition read_fields (b : Purchase.t) : string * Q * Q * option Z :=
  (Purchase.alloy_type b, Purchase.price_per_kg b,
   Purchase.remaining_quantity_kg b, Purchase.id b).

Definition agree (b1 b2 : Purchase.t) : Prop := read_fields b1 = read_fields b2.

(** ** Consumptions of the lots of a grade *)






(** ** The order of steps asked for by the specification *)

Definition id_before (i j : option Z) : Prop :=
  match i, j with
  | Some x, Some y => (x < y)%Z
  | _, _ => False
  end.

(** Ascending unit cost, and ascending identity among equal unit costs. *)
Definition by_cost_then_identity (s1 s2 : Step.t) : Prop :=
  Step.price_per_kg s1 < Step.price_per_kg s2
  \/ (Step.price_per_kg s1 == Step.price_per_kg s2
      /\ id_before (Step.purchase_id s1) (Step.purchase_id s2)).

(** ** Dictionaries, as their keys and values *)

Definition keys {V : Type} (d : dict V) : list string := map fst d.

(** [d[k]] on a [defaultdict] whose factory returns [dflt], as a value. *)
Definition dict_val {V : Type} (dflt : V) (d : dict V) (k : string) : V :=
  match dict_get d k with
  | Some v => v
  | None => dflt
  end.

(** ** The loops, read as the lists they build *)

(** The step of lines 51-57. *)
Definition step_of (alloy : string) (b : Purchase.t) (use : Q) : Step.t :=
  {| Step.alloy_type := alloy;
     Step.purchase_id := Purchase.id b;
     Step.quantity_used_kg := use;
     Step.price_per_kg := Purchase.price_per_kg b;
     Step.cost := use * Purchase.price_per_kg b |}.

(** The steps appended by the loop over the batches of one alloy. *)
Fixpoint steps_of (alloy : string) (batches : list Purchase.t) (left : Q)
  : list Step.t :=
  match batches with
  | [] => []
  | b :: batches' =>
      if Qle_bool left 0 then []
      else
        let use := py_min (Purchase.remaining_quantity_kg b) left in
        if Qle_bool use 0 then steps_of alloy batches' left
        else step_of alloy b use :: steps_of alloy batches' (left - use)
  end.

(** The value of [left] when that loop is over. *)
Fixpoint left_after (batches : list Purchase.t) (left : Q) : Q :=
  match batches with
  | [] => left
  | b :: batches' =>
      if Qle_bool left 0 then left
      else
        let use := py_min (Purchase.remaining_quantity_kg b) left in
        if Qle_bool use 0 then left_after batches' left
        else left_after batches' (left - use)
  end.

(** [total += cost], step after step. *)
Definition add_costs (steps : list Step.t) (total : Q) : Q :=
  fold_left (fun acc s => acc + Step.cost s) steps total.

Definition shortfall_of (alloy : string) (left : Q) : list ToBuy.t :=
  if Qltb 0 left
  then [ {| ToBuy.alloy_type := alloy; ToBuy.missing_quantity_kg := left |} ]
  else [].

(** The batches of a grade in the order in which the loop visits them. *)
Definition batches_of (purchases : list Purchase.t) (alloy : string)
  : list Purchase.t :=
  sorted Purchase.price_per_kg (lots_of alloy purchases).

Definition steps_item (purchases : list Purchase.t) (item : string * Q)
  : list Step.t :=
  steps_of (fst item) (batches_of purchases (fst item)) (snd item).

Definition shortfall_item (purchases : list Purchase.t) (item : string * Q)
  : list ToBuy.t :=
  shortfall_of (fst item) (left_after (batches_of purchases (fst item)) (snd item)).

(** The demand the engine works with for a grade: the entry of
    [target_by_alloy], 0 for a grade without entry. *)
Definition need_of (targets : list SalesTarget.t) (alloy : string) : Q :=
  dict_val 0 (target_by_alloy targets) alloy.


(** The order of the sort, on keys. *)
Definition key_le {A : Type} (key : A -> Q) (x y : A) : Prop := key x <= key y.

(** ** Sample inputs *)

Definition a_day : date := mkDate 2024 1 1.

Definition lot (i : Z) (alloy : string) (price qty : Q) : Purchase.t :=
  Purchase.mk alloy 1 qty price a_day None None (Some i) qty.

Definition line (alloy : string) (qty : Q) : SalesTarget.t :=
  SalesTarget.mk alloy qty 1 2024 None.

(** Two lots of one unit cost, supplied in reverse order of identity. *)
Definition tied_lots : list Purchase.t :=
  [lot 2 "steel" 5 10; lot 1 "steel" 5 10].

Definition tied_demand : list SalesTarget.t := [line "steel" 15].

Definition demo_lots : list Purchase.t :=
  [ lot 1 "steel" 5 60; lot 2 "steel" 3 50;
    lot 3 "copper" 2 10; lot 4 "tin" 7 5 ].

Definition demo_demand : list SalesTarget.t :=
  [ line "steel" 60; line "copper" 30; line "steel" 40; line "zinc" 0 ].

(** The same stock with other purities, quantities bought and suppliers. *)
Definition demo_lots' : list Purchase.t :=
  [ Purchase.mk "steel" (9 # 10) 500 5 (mkDate 2023 5 17) (Some "Acme"%string)
      None (Some 1%Z) 60;
    Purchase.mk "steel" (1 # 2) 50 3 a_day None (Some "scrap"%string)
      (Some 2%Z) 50;
    lot 3 "copper" 2 10;
    Purchase.mk "tin" 1 80 7 a_day None None (Some 4%Z) 5 ].

(** A session for scenario A: the two lots of the scenario, a lot without
    stock left, and a target of another month. *)
Definition scenario_session : Session :=
  {| purchases_table := [0; 1; 2]%nat;
     purchase_at := fun o =>
       nth o [lot 1 "steel" 5 60; lot 2 "steel" 3 50]
         (Purchase.mk "steel" 1 40 1 a_day None None (Some 3%Z) 0);
     targets_table := [0; 1]%nat;
     target_at := fun o =>
       nth o [line "steel" 100] (SalesTarget.mk "steel" 70 2 2024 None) |}.

(** * main.py *)

(** ** The inventory summary *)

(** An entry of [by_alloy]. *)
Module AlloyRecord.
Record t := mk {
  alloy_type : string;
  quantity_kg : Q;
  value : Q
}.
End AlloyRecord.

(** The dictionary returned by [inventory_summary]. *)
Module Summary.
Record t := mk {
  total_inventory_kg : Q;
  total_inventory_value : Q;
  by_alloy : list AlloyRecord.t
}.
End Summary.

(** [sum(xs)]: the additions start from 0 and go from the left. *)
Definition py_sum (l : list Q) : Q := fold_left Qplus l 0.

(** Lines 193-198, the body of the loop over the purchases: [setdefault]
    finds the record of the alloy, or inserts one with nothing in it, and
    the two [+=] add to that record. *)
Definition do_summary (by_alloy : dict AlloyRecord.t) (p : ref)
  : DB (flow (dict AlloyRecord.t)) :=
  key <- purchase_attr Purchase.alloy_type p ;;
  alloy_type <- purchase_attr Purchase.alloy_type p ;;
  kg <- purchase_attr Purchase.remaining_quantity_kg p ;;
  kg' <- purchase_attr Purchase.remaining_quantity_kg p ;;
  price <- purchase_attr Purchase.price_per_kg p ;;
  ret (Next
         (dict_update
            {| AlloyRecord.alloy_type := alloy_type;
               AlloyRecord.quantity_kg := 0;
               AlloyRecord.value := 0 |}
            (fun rec =>
               {| AlloyRecord.alloy_type := AlloyRecord.alloy_type rec;
                  AlloyRecord.quantity_kg := AlloyRecord.quantity_kg rec + kg;
                  AlloyRecord.value := AlloyRecord.value rec + kg' * price |})
            key by_alloy)).

(** The same summary as a function of the rows selected. *)

(** The record that [setdefault] inserts for the alloy of a purchase. *)
Definition empty_record (p : Purchase.t) : AlloyRecord.t :=
  {| AlloyRecord.alloy_type := Purchase.alloy_type p;
     AlloyRecord.quantity_kg := 0;
     AlloyRecord.value := 0 |}.

(** The two [+=] of lines 197-198. *)
Definition add_lot (p : Purchase.t) (rec : AlloyRecord.t) : AlloyRecord.t :=
  {| AlloyRecord.alloy_type := AlloyRecord.alloy_type rec;
     AlloyRecord.quantity_kg :=
       AlloyRecord.quantity_kg rec + Purchase.remaining_quantity_kg p;
     AlloyRecord.value :=
       AlloyRecord.value rec
       + Purchase.remaining_quantity_kg p * Purchase.price_per_kg p |}.

Definition add_to_summary (d : dict AlloyRecord.t) (p : Purchase.t)
  : dict AlloyRecord.t :=
  dict_update (empty_record p) (add_lot p) (Purchase.alloy_type p) d.

Definition summary_of (purchases : list Purchase.t) : Summary.t :=
  {| Summary.total_inventory_kg :=
       py_sum (map Purchase.remaining_quantity_kg purchases);
     Summary.total_inventory_value :=
       py_sum (map (fun p => Purchase.remaining_quantity_kg p
                             * Purchase.price_per_kg p) purchases);
     Summary.by_alloy := map snd (fold_left add_to_summary purchases []) |}.



(** The elements of a list of names in the order in which they first
    occur. *)
Fixpoint first_seen (l : list string) : list string :=
  match l with
  | [] => []
  | x :: l' => x :: filter (fun y => negb (String.eqb y x)) (first_seen l')
  end.

(** A turn of a loop that groups elements under their key: the entry of
    the key, created from [dflt] when missing, takes the element in. *)
Definition group_step {X V : Type} (key : X -> string) (dflt : X -> V)
    (upd : X -> V -> V) (d : dict V) (x : X) : dict V :=
  dict_update (dflt x) (upd x) (key x) d.

(** ** Requests, responses and exceptions *)

(** The body of a request that creates or updates a purchase: the fields
    of [PurchaseBase]. *)
Module PurchaseCreate.
Record t := mk {
  alloy_type : string;
  purity : Q;
  quantity_kg : Q;
  price_per_kg : Q;
  purchase_date : date;
  supplier : option string;
  notes : option string
}.
End PurchaseCreate.

(** The body of a request that creates or updates a sales target: the
    fields of [SalesTargetBase]. *)
Module SalesTargetCreate.
Record t := mk {
  alloy_type : string;
  target_quantity_kg : Q;
  month : Z;
  year : Z
}.
End SalesTargetCreate.

(** What an endpoint raises: [HTTPException(status_code, detail)], or the
    [AttributeError] of an attribute looked up on [None]. *)
Inductive exception : Type :=
| HTTPException (status_code : Z) (detail : string)
| AttributeError.

Inductive outcome (A : Type) : Type :=
| Returns (a : A)
| Raises (e : exception).

Arguments Returns {A} a.
Arguments Raises {A} e.

(** An item of [data.dict()] for a purchase: a field with its value. *)
Inductive purchase_item : Type :=
| alloy_type_item (v : string)
| purity_item (v : Q)
| quantity_kg_item (v : Q)
| price_per_kg_item (v : Q)
| purchase_date_item (v : date)
| supplier_item (v : option string)
| notes_item (v : option string).

(** [data.dict().items()], in the order in which the fields are declared. *)
Definition purchase_items (data : PurchaseCreate.t) : list purchase_item :=
  [ alloy_type_item (PurchaseCreate.alloy_type data);
    purity_item (PurchaseCreate.purity data);
    quantity_kg_item (PurchaseCreate.quantity_kg data);
    price_per_kg_item (PurchaseCreate.price_per_kg data);
    purchase_date_item (PurchaseCreate.purchase_date data);
    supplier_item (PurchaseCreate.supplier data);
    notes_item (PurchaseCreate.notes data) ].

(** The state of a purchase after [setattr(purchase, key, value)]. *)
Definition purchase_with (p : Purchase.t) (item : purchase_item) : Purchase.t :=
  match item with
  | alloy_type_item v =>
      Purchase.mk v (Purchase.purity p) (Purchase.quantity_kg p)
        (Purchase.price_per_kg p) (Purchase.purchase_date p)
        (Purchase.supplier p) (Purchase.notes p) (Purchase.id p)
        (Purchase.remaining_quantity_kg p)
  | purity_item v =>
      Purchase.mk (Purchase.alloy_type p) v (Purchase.quantity_kg p)
        (Purchase.price_per_kg p) (Purchase.purchase_date p)
        (Purchase.supplier p) (Purchase.notes p) (Purchase.id p)
        (Purchase.remaining_quantity_kg p)
  | quantity_kg_item v =>
      Purchase.mk (Purchase.alloy_type p) (Purchase.purity p) v
        (Purchase.price_per_kg p) (Purchase.purchase_date p)
        (Purchase.supplier p) (Purchase.notes p) (Purchase.id p)
        (Purchase.remaining_quantity_kg p)
  | price_per_kg_item v =>
      Purchase.mk (Purchase.alloy_type p) (Purchase.purity p)
        (Purchase.quantity_kg p) v (Purchase.purchase_date p)
        (Purchase.supplier p) (Purchase.notes p) (Purchase.id p)
        (Purchase.remaining_quantity_kg p)
  | purchase_date_item v =>
      Purchase.mk (Purchase.alloy_type p) (Purchase.purity p)
        (Purchase.quantity_kg p) (Purchase.price_per_kg p) v
        (Purchase.supplier p) (Purchase.notes p) (Purchase.id p)
        (Purchase.remaining_quantity_kg p)
  | supplier_item v =>
      Purchase.mk (Purchase.alloy_type p) (Purchase.purity p)
        (Purchase.quantity_kg p) (Purchase.price_per_kg p)
        (Purchase.purchase_date p) v (Purchase.notes p) (Purchase.id p)
        (Purchase.remaining_quantity_kg p)
  | notes_item v =>
      Purchase.mk (Purchase.alloy_type p) (Purchase.purity p)
        (Purchase.quantity_kg p) (Purchase.price_per_kg p)
        (Purchase.purchase_date p) (Purchase.supplier p) v (Purchase.id p)
        (Purchase.remaining_quantity_kg p)
  end.

(** An item of [data.dict()] for a sales target. *)
Inductive target_item : Type :=
| target_alloy_type_item (v : string)
| target_quantity_kg_item (v : Q)
| month_item (v : Z)
| year_item (v : Z).

Definition target_items (data : SalesTargetCreate.t) : list target_item :=
  [ target_alloy_type_item (SalesTargetCreate.alloy_type data);
    target_quantity_kg_item (SalesTargetCreate.target_quantity_kg data);
    month_item (SalesTargetCreate.month data);
    year_item (SalesTargetCreate.year data) ].

(** The state of a sales target after [setattr(target, key, value)]. *)
Definition target_with (t : SalesTarget.t) (item : target_item)
  : SalesTarget.t :=
  match item with
  | target_alloy_type_item v =>
      SalesTarget.mk v (SalesTarget.target_quantity_kg t)
        (SalesTarget.month t) (SalesTarget.year t) (SalesTarget.id t)
  | target_quantity_kg_item v =>
      SalesTarget.mk (SalesTarget.alloy_type t) v
        (SalesTarget.month t) (SalesTarget.year t) (SalesTarget.id t)
  | month_item v =>
      SalesTarget.mk (SalesTarget.alloy_type t)
        (SalesTarget.target_quantity_kg t) v (SalesTarget.year t)
        (SalesTarget.id t)
  | year_item v =>
      SalesTarget.mk (SalesTarget.alloy_type t)
        (SalesTarget.target_quantity_kg t) (SalesTarget.month t) v
        (SalesTarget.id t)
  end.

(** ** Writing to the session *)

(** The integers that a column holds and that a query can look for, 64-bit
    signed ones.  With a key or an integer field outside of them the
    database driver raises [OverflowError] when it binds the value, which is
    not modelled: what is stated of a request that brings its own integers
    is stated for integers inside. *)
Definition int64 (n : Z) : bool := ((- 2 ^ 63 <=? n) && (n <? 2 ^ 63))%Z.

(** [session.get(Purchase, purchase_id)] and
    [session.get(SalesTarget, target_id)]: the row of that primary key, or
    [None]. *)
Definition get_purchase (purchase_id : Z) : DB (option ref) :=
  fun s =>
    (find (fun o => same_lot (Purchase.id (purchase_at s o)) (Some purchase_id))
       (purchases_table s), s).

Definition get_target (target_id : Z) : DB (option ref) :=
  fun s =>
    (find (fun o => same_lot (SalesTarget.id (target_at s o)) (Some target_id))
       (targets_table s), s).

(** [setattr(o, key, value)] on an object of the session. *)
Definition setattr_purchase (o : ref) (item : purchase_item) : DB unit :=
  fun s =>
    (tt,
     {| purchases_table := purchases_table s;
        purchase_at := fun o' =>
          if Nat.eqb o' o then purchase_with (purchase_at s o') item
          else purchase_at s o';
        targets_table := targets_table s;
        target_at := target_at s |}).

Definition setattr_target (o : ref) (item : target_item) : DB unit :=
  fun s =>
    (tt,
     {| purchases_table := purchases_table s;
        purchase_at := purchase_at s;
        targets_table := targets_table s;
        target_at := fun o' =>
          if Nat.eqb o' o then target_with (target_at s o') item
          else target_at s o' |}).

(** A reference that no row of a table uses. *)
Definition new_ref (table : list ref) : ref := S (fold_right Nat.max 0%nat table).

(** The primary key of a row once inserted: its own if it has one,
    otherwise the key that the database assigns. *)
Definition assigned (key : Z) (id : option Z) : option Z :=
  match id with
  | Some i => Some i
  | None => Some key
  end.

(** [session.add(o); session.commit(); session.refresh(o)] for an object
    that is new to the session: the row is inserted behind the rows of the
    table, with the primary key [key] that the database assigns when the
    object has none. *)
Definition insert_purchase (key : Z) (p : Purchase.t) : DB ref :=
  fun s =>
    let o := new_ref (purchases_table s) in
    (o,
     {| purchases_table := purchases_table s ++ [o];
        purchase_at := fun o' =>
          if Nat.eqb o' o then
            Purchase.mk (Purchase.alloy_type p) (Purchase.purity p)
              (Purchase.quantity_kg p) (Purchase.price_per_kg p)
              (Purchase.purchase_date p) (Purchase.supplier p)
              (Purchase.notes p) (assigned key (Purchase.id p))
              (Purchase.remaining_quantity_kg p)
          else purchase_at s o';
        targets_table := targets_table s;
        target_at := target_at s |}).

Definition insert_target (key : Z) (t : SalesTarget.t) : DB ref :=
  fun s =>
    let o := new_ref (targets_table s) in
    (o,
     {| purchases_table := purchases_table s;
        purchase_at := purchase_at s;
        targets_table := targets_table s ++ [o];
        target_at := fun o' =>
          if Nat.eqb o' o then
            SalesTarget.mk (SalesTarget.alloy_type t)
              (SalesTarget.target_quantity_kg t) (SalesTarget.month t)
              (SalesTarget.year t) (assigned key (SalesTarget.id t))
          else target_at s o' |}).

(** [session.add(o); session.commit(); session.refresh(o)] for an object
    that the session holds already: its attributes are those of the row,
    and the session of this model has nothing pending. *)
Definition commit : DB unit := ret tt.

(** [session.delete(o); session.commit()] *)
Definition delete_purchase_row (o : ref) : DB unit :=
  fun s =>
    (tt,
     {| purchases_table :=
          filter (fun o' => negb (Nat.eqb o' o)) (purchases_table s);
        purchase_at := purchase_at s;
        targets_table := targets_table s;
        target_at := target_at s |}).

Definition delete_target_row (o : ref) : DB unit :=
  fun s =>
    (tt,
     {| purchases_table := purchases_table s;
        purchase_at := purchase_at s;
        targets_table :=
          filter (fun o' => negb (Nat.eqb o' o)) (targets_table s);
        target_at := target_at s |}).

(** ** The endpoints

    The functions of main.py, under their names. *)

Module Main.

(** Lines 32-38.  [key] is the primary key that the database gives to the
    new row. *)
Definition add_purchase (key : Z) (data : PurchaseCreate.t) : DB Purchase.t :=
  let purchase :=
    Purchase.mk (PurchaseCreate.alloy_type data) (PurchaseCreate.purity data)
      (PurchaseCreate.quantity_kg data) (PurchaseCreate.price_per_kg data)
      (PurchaseCreate.purchase_date data) (PurchaseCreate.supplier data)
      (PurchaseCreate.notes data) None (PurchaseCreate.quantity_kg data) in
  o <- insert_purchase key purchase ;;
  purchase_attr (fun p => p) o.

(** Lines 42-44. *)
Definition list_purchases : DB (list Purchase.t) :=
  rows <- select_purchases (fun _ => true) ;;
  map_db (purchase_attr (fun p => p)) rows.

(** Lines 77-95.  The body is optional ([data: PurchaseCreate = None]). *)
Definition update_purchase (purchase_id : Z) (data : option PurchaseCreate.t)
  : DB (outcome Purchase.t) :=
  found <- get_purchase purchase_id ;;
  match found with
  | None => ret (Raises (HTTPException 404 "Purchase not found"))
  | Some purchase =>
      match data with
      | None => ret (Raises AttributeError)
      | Some data =>
          done <- for_each (purchase_items data) tt
                    (fun st item =>
                       u <- setattr_purchase purchase item ;; ret (Next u)) ;;
          u <- set_remaining_quantity_kg purchase
                 (PurchaseCreate.quantity_kg data) ;;
          u' <- commit ;;
          p <- purchase_attr (fun p => p) purchase ;;
          ret (Returns p)
      end
  end.

(** Lines 99-110. *)
Definition delete_purchase (purchase_id : Z)
  : DB (outcome (list (string * string))) :=
  found <- get_purchase purchase_id ;;
  match found with
  | None => ret (Raises (HTTPException 404 "Not found"))
  | Some purchase =>
      u <- delete_purchase_row purchase ;;
      ret (Returns [("status", "deleted")%string])
  end.

(** Lines 118-124. *)
Definition add_target (key : Z) (data : SalesTargetCreate.t)
  : DB SalesTarget.t :=
  let target :=
    SalesTarget.mk (SalesTargetCreate.alloy_type data)
      (SalesTargetCreate.target_quantity_kg data)
      (SalesTargetCreate.month data) (SalesTargetCreate.year data) None in
  o <- insert_target key target ;;
  target_attr (fun t => t) o.


(** Lines 144-160. *)
Definition update_sales_target (target_id : Z) (data : SalesTargetCreate.t)
  : DB (outcome SalesTarget.t) :=
  found <- get_target target_id ;;
  match found with
  | None => ret (Raises (HTTPException 404 "Sales target not found"))
  | Some target =>
      done <- for_each (target_items data) tt
                (fun st item =>
                   u <- setattr_target target item ;; ret (Next u)) ;;
      u <- commit ;;
      t <- target_attr (fun t => t) target ;;
      ret (Returns t)
  end.

(** Lines 164-175. *)
Definition delete_sales_target (target_id : Z)
  : DB (outcome (list (string * string))) :=
  found <- get_target target_id ;;
  match found with
  | None => ret (Raises (HTTPException 404 "Not found"))
  | Some target =>
      u <- delete_target_row target ;;
      ret (Returns [("status", "deleted")%string])
  end.

(** Lines 183-204. *)
Definition inventory_summary : DB Summary.t :=
  purchases <- select_purchases
                 (fun p => Qltb 0 (Purchase.remaining_quantity_kg p)) ;;
  kgs <- map_db (purchase_attr Purchase.remaining_quantity_kg) purchases ;;
  values <- map_db
              (fun p =>
                 kg <- purchase_attr Purchase.remaining_quantity_kg p ;;
                 price <- purchase_attr Purchase.price_per_kg p ;;
                 ret (kg * price))
              purchases ;;
  by_alloy <- for_each purchases [] do_summary ;;
  ret {| Summary.total_inventory_kg := py_sum kgs;
         Summary.total_inventory_value := py_sum values;
         Summary.by_alloy := map snd by_alloy |}.

(** Lines 211-214. *)
Definition optimize (year month : Z) : DB Result :=
  result <- calculate_optimal_mix year month ;;
  ret result.

End Main.

(** ** What is observed of a session *)

(** The rows of the two tables. *)
Definition all_purchases (s : Session) : list Purchase.t :=
  map (purchase_at s) (purchases_table s).

Definition all_targets (s : Session) : list SalesTarget.t :=
  map (target_at s) (targets_table s).

(** The primary keys in use. *)
Definition purchase_ids (s : Session) : list (option Z) :=
  map Purchase.id (all_purchases s).

Definition target_ids (s : Session) : list (option Z) :=
  map SalesTarget.id (all_targets s).

(** The state of a purchase once [update_purchase] has copied the fields
    of [data] into it and reset what remains of it. *)
Definition updated_purchase (data : PurchaseCreate.t) (p : Purchase.t)
  : Purchase.t :=
  {| Purchase.alloy_type := PurchaseCreate.alloy_type data;
     Purchase.purity := PurchaseCreate.purity data;
     Purchase.quantity_kg := PurchaseCreate.quantity_kg data;
     Purchase.price_per_kg := PurchaseCreate.price_per_kg data;
     Purchase.purchase_date := PurchaseCreate.purchase_date data;
     Purchase.supplier := PurchaseCreate.supplier data;
     Purchase.notes := PurchaseCreate.notes data;
     Purchase.id := Purchase.id p;
     Purchase.remaining_quantity_kg := PurchaseCreate.quantity_kg data |}.

(** The state of a sales target once [update_sales_target] has copied the
    fields of [data] into it. *)
Definition updated_target (data : SalesTargetCreate.t) (t : SalesTarget.t)
  : SalesTarget.t :=
  {| SalesTarget.alloy_type := SalesTargetCreate.alloy_type data;
     SalesTarget.target_quantity_kg := SalesTargetCreate.target_quantity_kg data;
     SalesTarget.month := SalesTargetCreate.month data;
     SalesTarget.year := SalesTargetCreate.year data;
     SalesTarget.id := SalesTarget.id t |}.

(** The purchase that [add_purchase] stores for [data] under [key]. *)
Definition created_purchase (key : Z) (data : PurchaseCreate.t) : Purchase.t :=
  {| Purchase.alloy_type := PurchaseCreate.alloy_type data;
     Purchase.purity := PurchaseCreate.purity data;
     Purchase.quantity_kg := PurchaseCreate.quantity_kg data;
     Purchase.price_per_kg := PurchaseCreate.price_per_kg data;
     Purchase.purchase_date := PurchaseCreate.purchase_date data;
     Purchase.supplier := PurchaseCreate.supplier data;
     Purchase.notes := PurchaseCreate.notes data;
     Purchase.id := Some key;
     Purchase.remaining_quantity_kg := PurchaseCreate.quantity_kg data |}.

(** The sales target that [add_target] stores for [data] under [key]. *)
Definition created_target (key : Z) (data : SalesTargetCreate.t)
  : SalesTarget.t :=
  {| SalesTarget.alloy_type := SalesTargetCreate.alloy_type data;
     SalesTarget.target_quantity_kg := SalesTargetCreate.target_quantity_kg data;
     SalesTarget.month := SalesTargetCreate.month data;
     SalesTarget.year := SalesTargetCreate.year data;
     SalesTarget.id := Some key |}.

(** The rows of another primary key than [i]. *)
Definition other_purchase (i : Z) (p : Purchase.t) : bool :=
  negb (same_lot (Purchase.id p) (Some i)).

Definition other_target (i : Z) (t : SalesTarget.t) : bool :=
  negb (same_lot (SalesTarget.id t) (Some i)).

(** ** A sample session *)

Definition target_row (i : Z) (alloy : string) (qty : Q) (month year : Z)
  : SalesTarget.t :=
  SalesTarget.mk alloy qty month year (Some i).

(** Four purchases, one of them used up, and four sales targets, one of
    them for another month. *)
Definition demo_session : Session :=
  {| purchases_table := [0; 1; 2; 3]%nat;
     purchase_at := fun o =>
       nth o [ lot 1 "steel" 5 60; lot 2 "steel" 3 50; lot 3 "copper" 2 10 ]
         (Purchase.mk "tin" 1 80 7 a_day None None (Some 4%Z) 0);
     targets_table := [0; 1; 2; 3]%nat;
     target_at := fun o =>
       nth o [ target_row 1 "steel" 60 1 2024; target_row 2 "copper" 30 1 2024;
               target_row 3 "steel" 40 1 2024 ]
         (target_row 4 "steel" 500 2 2024) |}.

Definition demo_purchase : PurchaseCreate.t :=
  PurchaseCreate.mk "zinc" 1 25 4 a_day None None.

Definition demo_target : SalesTargetCreate.t :=
  SalesTargetCreate.mk "copper" 15 3 2024.

(** * optimizer.py on binary64

    The amounts of the Python code are [float]s, IEEE 754 binary64 numbers:
    [+], [-] and [*] round to the nearest representable number.  The sums of
    the properties in the specification (used plus missing against demand,
    the cost of a plan against the cost of another) do not survive that
    rounding, so that for them the optimizer is given a second time, on the
    primitive floats of Rocq, which are the same binary64 numbers with the
    same operations.  [Binary64.allocate] is, line by line, [allocate] above
    with the operations of [float] in place of those of [Q]. *)

Module Binary64.

Local Open Scope float_scope.

Module Purchase.
Record t := mk {
  alloy_type : string;
  purity : float;
  quantity_kg : float;
  price_per_kg : float;
  purchase_date : date;
  supplier : option string;
  notes : option string;
  id : option Z;
  remaining_quantity_kg : float
}.
End Purchase.

Module SalesTarget.
Record t := mk {
  alloy_type : string;
  target_quantity_kg : float;
  month : Z;
  year : Z;
  id : option Z
}.
End SalesTarget.

(** [min(a, b)] of Python: [b] when [b < a], otherwise [a]. *)
Definition py_min (a b : float) : float := if b <? a then b else a.

(** [sorted(l, key=key)] with float keys, none of them a NaN: ascending and
    stable, as [sorted] above. *)
Fixpoint insert_by {A : Type} (key : A -> float) (x : A) (l : list A)
  : list A :=
  match l with
  | [] => [x]
  | y :: l' =>
      if key y <? key x then y :: insert_by key x l' else x :: y :: l'
  end.

Fixpoint sorted {A : Type} (key : A -> float) (l : list A) : list A :=
  match l with
  | [] => []
  | x :: l' => insert_by key x (sorted key l')
  end.

(** An entry of [result["optimal_mix"]]. *)
Module Step.
Record t := mk {
  alloy_type : string;
  purchase_id : option Z;
  quantity_used_kg : float;
  price_per_kg : float;
  cost : float
}.
End Step.

(** An entry of [result["to_buy"]]. *)
Module ToBuy.
Record t := mk {
  alloy_type : string;
  missing_quantity_kg : float
}.
End ToBuy.

Record Result := mkResult {
  optimal_mix : list Step.t;
  to_buy : list ToBuy.t;
  total_cost_for_targets : float
}.

(** Line 14; [defaultdict(float)] starts an entry at [0.0]. *)
Definition add_target (d : dict float) (t : SalesTarget.t) : dict float :=
  dict_update 0 (fun v => v + SalesTarget.target_quantity_kg t)
    (SalesTarget.alloy_type t) d.

(** Lines 12-14. *)
Definition target_by_alloy (targets : list SalesTarget.t) : dict float :=
  fold_left add_target targets [].

(** Line 23. *)
Definition add_purchase (d : dict (list Purchase.t)) (p : Purchase.t)
  : dict (list Purchase.t) :=
  dict_update [] (fun l => l ++ [p]) (Purchase.alloy_type p) d.

(** Lines 21-23. *)
Definition inventory (purchases : list Purchase.t) : dict (list Purchase.t) :=
  fold_left add_purchase purchases [].

(** Lines 40-59. *)
Fixpoint use_batches (alloy : string) (batches : list Purchase.t)
    (left : float) (result : Result) : float * Result :=
  match batches with
  | [] => (left, result)
  | b :: batches' =>
      if left <=? 0 then (left, result)
      else
        let use := py_min (Purchase.remaining_quantity_kg b) left in
        if use <=? 0 then use_batches alloy batches' left result
        else
          let cost := use * Purchase.price_per_kg b in
          use_batches alloy batches' (left - use)
            {| optimal_mix :=
                 optimal_mix result ++
                 [ {| Step.alloy_type := alloy;
                      Step.purchase_id := Purchase.id b;
                      Step.quantity_used_kg := use;
                      Step.price_per_kg := Purchase.price_per_kg b;
                      Step.cost := cost |} ];
               to_buy := to_buy result;
               total_cost_for_targets := total_cost_for_targets result + cost |}
  end.

(** Lines 33-66. *)
Definition for_alloy (inv : dict (list Purchase.t)) (result : Result)
    (item : string * float) : Result :=
  let (alloy, need_qty) := item in
  let batches := sorted Purchase.price_per_kg (dict_get_list inv alloy) in
  let (left, result') := use_batches alloy batches need_qty result in
  if 0 <? left then
    {| optimal_mix := optimal_mix result';
       to_buy :=
         to_buy result' ++
         [ {| ToBuy.alloy_type := alloy; ToBuy.missing_quantity_kg := left |} ];
       total_cost_for_targets := total_cost_for_targets result' |}
  else result'.

(** Lines 12-68, on the rows that the two queries return. *)
Definition allocate (targets : list SalesTarget.t)
    (purchases : list Purchase.t) : Result :=
  fold_left (for_alloy (inventory purchases)) (target_by_alloy targets)
    {| optimal_mix := []; to_buy := []; total_cost_for_targets := 0 |}.

End Binary64.

(** ** The numbers that floats stand for *)

(** [m * 2^e] as a fraction. *)
Definition mag (m : positive) (e : Z) : Q :=
  Qmake (Z.pos m * 2 ^ Z.max e 0) (Z.to_pos (2 ^ Z.max (- e) 0)).

Definition SFvalue (f : spec_float) : Q :=
  match f with
  | S754_finite s m e => if s then - mag m e else mag m e
  | _ => 0
  end.

Definition SFfinite (f : spec_float) : bool :=
  match f with
  | S754_zero _ | S754_finite _ _ _ => true
  | _ => false
  end.

(** A float is finite when it is neither an infinity nor a NaN; a finite
    float is a rational number, its value (both zeros have the value 0). *)
Definition finite (x : float) : bool := SFfinite (Prim2SF x).

Definition value (x : float) : Q := SFvalue (Prim2SF x).

(** The result [r] of an operation is exact when it is the number [q] that
    the operation gives on the rationals: nothing was rounded and nothing
    overflowed. *)
Definition exact (r : float) (q : Q) : bool :=
  finite r && Qeq_bool (value r) q.









(** ** Runs without rounding

    [exact_run targets purchases] follows the run of [Binary64.allocate] and
    tells whether every number read is finite and every [+], [-] and [*]
    performed is exact. *)






Definition finite_lot (p : Binary64.Purchase.t) : bool :=
  finite (Binary64.Purchase.price_per_kg p)
  && finite (Binary64.Purchase.remaining_quantity_kg p).







(** ** Sample inputs with fractions *)



(** Amounts that are no binary64 numbers are read as Python reads them, as
    the nearest binary64 number. *)
#[local] Set Warnings "-inexact-float".








(** * Properties *)

(** ** Comparisons *)

Lemma Qltb_true x y : Qltb x y = true <-> x < y.
Proof.
  unfold Qltb. rewrite negb_true_iff. split; intro H.
  - apply Qnot_le_lt. intro L. apply Qle_bool_iff in L. congruence.
  - destruct (Qle_bool y x) eqn:E; [|reflexivity].
    apply Qle_bool_iff in E. lra.
Qed.

Lemma Qltb_false x y : Qltb x y = false <-> y <= x.
Proof.
  unfold Qltb. rewrite negb_false_iff. apply Qle_bool_iff.
Qed.

Lemma Qle_bool_false x y : Qle_bool x y = false <-> y < x.
Proof.
  rewrite <- Qltb_true. unfold Qltb. now rewrite negb_true_iff.
Qed.

(** Turn the outcome of a comparison into the order fact it decides. *)
Ltac order_facts :=
  repeat match goal with
    | H : Qltb _ _ = true |- _ => apply Qltb_true in H
    | H : Qltb _ _ = false |- _ => apply Qltb_false in H
    | H : Qle_bool _ _ = true |- _ => apply Qle_bool_iff in H
    | H : Qle_bool _ _ = false |- _ => apply Qle_bool_false in H
    end.

Lemma py_min_cases a b :
  (b < a /\ py_min a b = b) \/ (a <= b /\ py_min a b = a).
Proof.
  unfold py_min. destruct (Qltb b a) eqn:E; order_facts; auto.
Qed.

(** ** Sums *)


Lemma Qsum_nonneg l : Forall (fun x => 0 <= x) l -> 0 <= Qsum l.
Proof.
  induction 1; simpl; lra.
Qed.

Lemma Qsum_filter_perm {X} (f : X -> bool) (g : X -> Q) l l' :
  Permutation l l' ->
  Qsum (map g (filter f l)) == Qsum (map g (filter f l')).
Proof.
  induction 1 as [|x l l' P IH|x y l|l l' l'' P1 IH1 P2 IH2]; simpl.
  - lra.
  - destruct (f x); simpl; lra.
  - destruct (f x), (f y); simpl; lra.
  - lra.
Qed.

Lemma Qsum_filter_filter {X} (f1 f2 : X -> bool) (g : X -> Q) l :
  Forall (fun x => 0 <= g x) l ->
  Qsum (map g (filter f1 (filter f2 l))) <= Qsum (map g (filter f1 l)).
Proof.
  induction 1 as [|x l Hx F IH]; simpl; [lra|].
  destruct (f2 x), (f1 x) eqn:E; simpl; rewrite ?E; simpl; lra.
Qed.

(** ** Lists *)

Lemma filter_all {X} (f : X -> bool) l :
  (forall x, In x l -> f x = true) -> filter f l = l.
Proof.
  induction l as [|x l IH]; simpl; intro H; [reflexivity|].
  rewrite (H x (or_introl eq_refl)). f_equal. auto.
Qed.

Lemma filter_none {X} (f : X -> bool) l :
  (forall x, In x l -> f x = false) -> filter f l = [].
Proof.
  induction l as [|x l IH]; simpl; intro H; [reflexivity|].
  rewrite (H x (or_introl eq_refl)). auto.
Qed.

Lemma filter_filter_implied {X} (f g : X -> bool) l :
  (forall x, In x l -> f x = true -> g x = true) ->
  filter f l = filter f (filter g l).
Proof.
  induction l as [|x l IH]; simpl; intro H; [reflexivity|].
  destruct (f x) eqn:F.
  - rewrite (H x (or_introl eq_refl) F). simpl. rewrite F. f_equal. auto.
  - destruct (g x); simpl; rewrite ?F; auto.
Qed.


Lemma nodup_map_inj {X Y} (f : X -> Y) l x y :
  NoDup (map f l) -> In x l -> In y l -> f x = f y -> x = y.
Proof.
  induction l as [|z l IH]; simpl; intros N Hx Hy E; [contradiction|].
  inversion N as [|? ? Hn N']; subst.
  destruct Hx as [->|Hx], Hy as [->|Hy]; auto.
  - exfalso. apply Hn. rewrite E. now apply in_map.
  - exfalso. apply Hn. rewrite <- E. now apply in_map.
Qed.

Lemma map_eq_Forall2 {X Y} (f : X -> Y) l1 : forall l2,
  map f l1 = map f l2 -> Forall2 (fun x y => f x = f y) l1 l2.
Proof.
  induction l1 as [|x l1 IH]; intros [|y l2] H; simpl in H;
    try discriminate; constructor; inversion H; auto.
Qed.

(** ** Dictionaries *)

Section Dict.
Context {V : Type}.

Lemma dict_get_update (dflt : V) f k (d : dict V) k' :
  dict_get (dict_update dflt f k d) k' =
  if String.eqb k' k then Some (f (dict_val dflt d k)) else dict_get d k'.
Proof.
  unfold dict_val. induction d as [|[k0 v] d IH]; simpl.
  - destruct (String.eqb k' k); reflexivity.
  - destruct (String.eqb k k0) eqn:E; simpl.
    + apply String.eqb_eq in E. subst k0.
      destruct (String.eqb k' k); reflexivity.
    + rewrite IH. destruct (String.eqb k' k0) eqn:E0; [|reflexivity].
      apply String.eqb_eq in E0. subst k0.
      rewrite String.eqb_sym, E. reflexivity.
Qed.

Lemma keys_update (dflt : V) f k (d : dict V) k' :
  In k' (keys (dict_update dflt f k d)) <-> k' = k \/ In k' (keys d).
Proof.
  induction d as [|[k0 v] d IH]; simpl.
  - intuition.
  - destruct (String.eqb k k0) eqn:E; simpl.
    + apply String.eqb_eq in E. subst k0. intuition.
    + rewrite IH. intuition.
Qed.

Lemma keys_update_nodup (dflt : V) f k (d : dict V) :
  NoDup (keys d) -> NoDup (keys (dict_update dflt f k d)).
Proof.
  induction d as [|[k0 v] d IH]; simpl; intro N.
  - constructor; [intros []|constructor].
  - inversion N as [|? ? Hn N']; subst.
    destruct (String.eqb k k0) eqn:E; simpl.
    + constructor; assumption.
    + constructor; [|auto].
      intro Hin. apply keys_update in Hin. destruct Hin as [->|Hin].
      * rewrite String.eqb_refl in E. discriminate.
      * contradiction.
Qed.

Lemma dict_get_none (d : dict V) k :
  ~ In k (keys d) -> dict_get d k = None.
Proof.
  induction d as [|[k0 v] d IH]; simpl; intro N; [reflexivity|].
  destruct (String.eqb k k0) eqn:E.
  - apply String.eqb_eq in E. subst. tauto.
  - apply IH. tauto.
Qed.

End Dict.

(** ** The sort *)

Section SortedFacts.
Context {A : Type} (key : A -> Q).

Lemma insert_by_perm x l : Permutation (insert_by key x l) (x :: l).
Proof.
  induction l as [|y l IH]; simpl; [reflexivity|].
  destruct (Qltb (key y) (key x)); [|reflexivity].
  rewrite IH. apply perm_swap.
Qed.

Lemma sorted_perm l : Permutation (sorted key l) l.
Proof.
  induction l as [|x l IH]; simpl; [reflexivity|].
  rewrite insert_by_perm. now constructor.
Qed.

Lemma sorted_in x l : In x (sorted key l) <-> In x l.
Proof.
  split; apply Permutation_in; [|symmetry]; apply sorted_perm.
Qed.

Lemma insert_by_ascending x l :
  StronglySorted (key_le key) l ->
  StronglySorted (key_le key) (insert_by key x l).
Proof.
  induction 1 as [|y l S IH F]; simpl.
  - repeat constructor.
  - destruct (Qltb (key y) (key x)) eqn:E; order_facts.
    + constructor; [assumption|].
      rewrite Forall_forall in *. intros z Hz.
      apply (Permutation_in _ (insert_by_perm x l)) in Hz.
      destruct Hz as [<-|Hz]; [unfold key_le; lra|auto].
    + constructor; [now constructor|].
      constructor; [exact E|].
      rewrite Forall_forall in *. intros z Hz.
      specialize (F z Hz). unfold key_le in *. lra.
Qed.

Lemma sorted_ascending l : StronglySorted (key_le key) (sorted key l).
Proof.
  induction l as [|x l IH]; simpl; [constructor|].
  now apply insert_by_ascending.
Qed.

(** Stability: the elements of one key keep the order they had. *)
Lemma insert_by_stable (f : A -> bool) x l :
  (forall y, f x = true -> f y = true -> key x <= key y) ->
  filter f (insert_by key x l) = filter f (x :: l).
Proof.
  intro Hf. induction l as [|y l IH]; [reflexivity|].
  simpl insert_by. destruct (Qltb (key y) (key x)) eqn:E; [|reflexivity].
  order_facts. simpl in *. rewrite IH.
  destruct (f x) eqn:Fx, (f y) eqn:Fy; try reflexivity.
  specialize (Hf y eq_refl Fy). lra.
Qed.

Lemma sorted_stable (p : Q) l :
  filter (fun x => Qeq_bool (key x) p) (sorted key l)
  = filter (fun x => Qeq_bool (key x) p) l.
Proof.
  induction l as [|x l IH]; [reflexivity|].
  simpl sorted. rewrite insert_by_stable.
  - simpl. now rewrite IH.
  - intros y Hx Hy. apply Qeq_bool_iff in Hx, Hy. lra.
Qed.

Lemma sorted_map {B} (g : B -> A) l :
  map g (sorted (fun x => key (g x)) l) = sorted key (map g l).
Proof.
  induction l as [|x l IH]; [reflexivity|].
  simpl. rewrite <- IH. generalize (sorted (fun x => key (g x)) l).
  intro s. induction s as [|y s IHs]; [reflexivity|].
  simpl. destruct (Qltb (key (g y)) (key (g x))); simpl; now rewrite ?IHs.
Qed.

End SortedFacts.

(** ** The two groupings *)

Lemma add_targets_val targets : forall d alloy,
  dict_val 0 (fold_left add_target targets d) alloy
  == dict_val 0 d alloy + demand_for alloy targets.
Proof.
  induction targets as [|t targets IH]; intros d alloy; simpl.
  - unfold demand_for. simpl. lra.
  - rewrite IH. unfold demand_for. simpl.
    unfold add_target at 1. unfold dict_val at 1.
    rewrite dict_get_update. unfold same_alloy.
    rewrite (String.eqb_sym (SalesTarget.alloy_type t) alloy).
    destruct (String.eqb alloy (SalesTarget.alloy_type t)) eqn:E; simpl.
    + apply String.eqb_eq in E. subst alloy. lra.
    + fold (dict_val 0 d alloy). lra.
Qed.

Lemma add_targets_keys targets : forall d alloy,
  In alloy (keys (fold_left add_target targets d))
  <-> In alloy (keys d) \/ In alloy (map SalesTarget.alloy_type targets).
Proof.
  induction targets as [|t targets IH]; intros d alloy; simpl.
  - tauto.
  - rewrite IH. unfold add_target. rewrite keys_update. intuition.
Qed.

Lemma add_targets_nodup targets : forall d,
  NoDup (keys d) -> NoDup (keys (fold_left add_target targets d)).
Proof.
  induction targets as [|t targets IH]; intros d N; simpl; [assumption|].
  apply IH. apply keys_update_nodup, N.
Qed.

Lemma target_by_alloy_nodup targets : NoDup (keys (target_by_alloy targets)).
Proof.
  apply (add_targets_nodup targets []). constructor.
Qed.

Lemma target_by_alloy_val targets alloy :
  dict_val 0 (target_by_alloy targets) alloy == demand_for alloy targets.
Proof.
  unfold target_by_alloy.
  rewrite add_targets_val. unfold dict_val. simpl. lra.
Qed.

Lemma target_by_alloy_keys targets alloy :
  In alloy (keys (target_by_alloy targets))
  <-> In alloy (map SalesTarget.alloy_type targets).
Proof.
  unfold target_by_alloy.
  rewrite add_targets_keys. simpl. tauto.
Qed.

Lemma grouped_get {X} (key : X -> string) l : forall (d : dict (list X)) alloy,
  dict_get_list
    (fold_left (fun d x => dict_update [] (fun l => l ++ [x]) (key x) d) l d)
    alloy
  = dict_get_list d alloy ++ filter (fun x => same_alloy alloy (key x)) l.
Proof.
  induction l as [|x l IH]; intros d alloy; simpl.
  - now rewrite app_nil_r.
  - rewrite IH. unfold dict_get_list at 1.
    rewrite dict_get_update. unfold same_alloy.
    rewrite (String.eqb_sym (key x) alloy).
    destruct (String.eqb alloy (key x)) eqn:E; simpl.
    + apply String.eqb_eq in E. subst alloy.
      unfold dict_get_list, dict_val.
      destruct (dict_get d (key x)); now rewrite <- app_assoc.
    + reflexivity.
Qed.

(** [inventory.get(alloy, [])] holds the lots of the grade, in the order
    in which they were supplied. *)
Lemma inventory_get purchases alloy :
  dict_get_list (inventory purchases) alloy = lots_of alloy purchases.
Proof.
  apply (grouped_get Purchase.alloy_type).
Qed.

(** ** The result, grade after grade *)

Lemma add_costs_app s1 s2 total :
  add_costs (s1 ++ s2) total = add_costs s2 (add_costs s1 total).
Proof. apply fold_left_app. Qed.


Lemma use_batches_eq alloy batches : forall left r,
  use_batches alloy batches left r
  = (left_after batches left,
     {| optimal_mix := optimal_mix r ++ steps_of alloy batches left;
        to_buy := to_buy r;
        total_cost_for_targets :=
          add_costs (steps_of alloy batches left) (total_cost_for_targets r) |}).
Proof.
  induction batches as [|b batches IH]; intros left r; simpl.
  - rewrite app_nil_r. now destruct r.
  - destruct (Qle_bool left 0).
    + rewrite app_nil_r. now destruct r.
    + destruct (Qle_bool (py_min (Purchase.remaining_quantity_kg b) left) 0).
      * apply IH.
      * rewrite IH. simpl. rewrite <- app_assoc. reflexivity.
Qed.

Lemma for_alloy_eq purchases r item :
  for_alloy (inventory purchases) r item
  = {| optimal_mix := optimal_mix r ++ steps_item purchases item;
       to_buy := to_buy r ++ shortfall_item purchases item;
       total_cost_for_targets :=
         add_costs (steps_item purchases item) (total_cost_for_targets r) |}.
Proof.
  destruct item as [alloy need]. unfold for_alloy.
  rewrite inventory_get. fold (batches_of purchases alloy).
  rewrite use_batches_eq. unfold steps_item, shortfall_item, shortfall_of.
  simpl. destruct (Qltb 0 (left_after (batches_of purchases alloy) need)).
  - reflexivity.
  - now rewrite app_nil_r.
Qed.

Lemma fold_for_alloy purchases items : forall r,
  fold_left (for_alloy (inventory purchases)) items r
  = {| optimal_mix := optimal_mix r ++ flat_map (steps_item purchases) items;
       to_buy := to_buy r ++ flat_map (shortfall_item purchases) items;
       total_cost_for_targets :=
         add_costs (flat_map (steps_item purchases) items)
           (total_cost_for_targets r) |}.
Proof.
  induction items as [|item items IH]; intro r; simpl.
  - rewrite !app_nil_r. now destruct r.
  - rewrite IH, for_alloy_eq. simpl.
    rewrite <- !app_assoc, add_costs_app. reflexivity.
Qed.

(** The result of [allocate], grade after grade. *)
Lemma allocate_eq targets purchases :
  allocate targets purchases
  = {| optimal_mix := flat_map (steps_item purchases) (target_by_alloy targets);
       to_buy := flat_map (shortfall_item purchases) (target_by_alloy targets);
       total_cost_for_targets :=
         add_costs (flat_map (steps_item purchases) (target_by_alloy targets)) 0 |}.
Proof.
  unfold allocate. now rewrite fold_for_alloy.
Qed.

(** What a dictionary with distinct keys contributes under one key, when
    each item only produces entries tagged with its own key. *)
Lemma filter_flat_map_items {V X} (g : string * V -> list X)
    (tag : X -> string) (d : dict V) (alloy : string) :
  (forall item x, In x (g item) -> tag x = fst item) ->
  NoDup (keys d) ->
  filter (fun x => same_alloy alloy (tag x)) (flat_map g d)
  = match dict_get d alloy with
    | Some v => g (alloy, v)
    | None => []
    end.
Proof.
  intros Htag. induction d as [|[k v] d IH]; simpl; intro N; [reflexivity|].
  inversion N as [|? ? Hn N']; subst. rewrite filter_app, (IH N').
  destruct (String.eqb alloy k) eqn:E.
  - apply String.eqb_eq in E. subst k.
    rewrite (dict_get_none d alloy Hn), app_nil_r.
    apply filter_all. intros x Hx. apply Htag in Hx. simpl in Hx.
    unfold same_alloy. rewrite Hx. apply String.eqb_refl.
  - rewrite filter_none; [reflexivity|].
    intros x Hx. apply Htag in Hx. simpl in Hx.
    unfold same_alloy. rewrite Hx, String.eqb_sym. exact E.
Qed.

Lemma steps_of_alloy alloy batches : forall left s,
  In s (steps_of alloy batches left) -> Step.alloy_type s = alloy.
Proof.
  induction batches as [|b batches IH]; intros left s; simpl; [tauto|].
  destruct (Qle_bool left 0); [intros []|].
  destruct (Qle_bool _ 0); [apply IH|].
  intros [<-|H]; [reflexivity|eapply IH, H].
Qed.

Lemma steps_of_zero alloy batches : steps_of alloy batches 0 = [].
Proof. destruct batches; reflexivity. Qed.

Lemma left_after_zero batches : left_after batches 0 = 0.
Proof. destruct batches; reflexivity. Qed.

Lemma steps_of_nonpos alloy batches left :
  left <= 0 -> steps_of alloy batches left = [] /\ left_after batches left = left.
Proof.
  intro H. apply Qle_bool_iff in H.
  destruct batches; simpl; [auto|]. now rewrite H.
Qed.

Lemma need_of_demand targets alloy :
  need_of targets alloy == demand_for alloy targets.
Proof. apply target_by_alloy_val. Qed.


Lemma steps_for_allocate targets purchases alloy :
  steps_for alloy (allocate targets purchases)
  = steps_of alloy (batches_of purchases alloy) (need_of targets alloy).
Proof.
  unfold steps_for. rewrite allocate_eq. simpl.
  rewrite (filter_flat_map_items (steps_item purchases) Step.alloy_type).
  - unfold need_of, dict_val.
    destruct (dict_get (target_by_alloy targets) alloy); [reflexivity|].
    now rewrite steps_of_zero.
  - intros item x. apply steps_of_alloy.
  - apply target_by_alloy_nodup.
Qed.

Lemma shortfalls_for_allocate targets purchases alloy :
  shortfalls_for alloy (allocate targets purchases)
  = shortfall_of alloy
      (left_after (batches_of purchases alloy) (need_of targets alloy)).
Proof.
  unfold shortfalls_for. rewrite allocate_eq. simpl.
  rewrite (filter_flat_map_items (shortfall_item purchases) ToBuy.alloy_type).
  - unfold need_of, dict_val.
    destruct (dict_get (target_by_alloy targets) alloy); [reflexivity|].
    now rewrite left_after_zero.
  - intros item x. unfold shortfall_item, shortfall_of.
    destruct (Qltb 0 _); simpl; [|tauto]. intros [<-|[]]. reflexivity.
  - apply target_by_alloy_nodup.
Qed.



(** ** The batches of a grade *)

Lemma batches_of_perm purchases alloy :
  Permutation (batches_of purchases alloy) (lots_of alloy purchases).
Proof. apply sorted_perm. Qed.

Lemma batches_of_in purchases alloy b :
  In b (batches_of purchases alloy)
  <-> In b purchases /\ Purchase.alloy_type b = alloy.
Proof.
  unfold batches_of, lots_of. rewrite sorted_in, filter_In.
  unfold same_alloy. now rewrite String.eqb_eq.
Qed.


Lemma batches_of_ok purchases alloy :
  lots_ok purchases ->
  Forall (fun p => 0 <= Purchase.price_per_kg p
                   /\ 0 < Purchase.remaining_quantity_kg p)
    (batches_of purchases alloy).
Proof.
  unfold lots_ok. rewrite !Forall_forall. intros H b Hb.
  apply batches_of_in in Hb. apply H, Hb.
Qed.

(** ** The loop over the batches of one grade *)



Lemma steps_of_in alloy batches : forall left s,
  In s (steps_of alloy batches left) ->
  exists b, In b batches
            /\ s = step_of alloy b (Step.quantity_used_kg s)
            /\ 0 < Step.quantity_used_kg s
            /\ Step.quantity_used_kg s <= Purchase.remaining_quantity_kg b.
Proof.
  induction batches as [|b batches IH]; intros left s; simpl; [tauto|].
  destruct (Qle_bool left 0); [intros []|].
  destruct (Qle_bool (py_min (Purchase.remaining_quantity_kg b) left) 0) eqn:E.
  - intro H. destruct (IH _ _ H) as (b' & ? & ?). exists b'. tauto.
  - intros [<-|H].
    + exists b. simpl. order_facts.
      repeat split; auto.
      destruct (py_min_cases (Purchase.remaining_quantity_kg b) left)
        as [[? ->]|[? ->]]; lra.
    + destruct (IH _ _ H) as (b' & ? & ?). exists b'. tauto.
Qed.


(** With stock in every batch, the loop emits a step for each batch it
    reaches: the steps follow a prefix of the batches. *)
Lemma steps_of_prefix alloy batches :
  Forall (fun b => 0 < Purchase.remaining_quantity_kg b) batches ->
  forall left, exists visited rest,
    batches = visited ++ rest
    /\ map step_ref (steps_of alloy batches left) = map lot_ref visited.
Proof.
  induction 1 as [|b batches Hb F IH]; intro left; simpl.
  - exists [], []. auto.
  - destruct (Qle_bool left 0) eqn:E.
    { exists [], (b :: batches). auto. }
    destruct (Qle_bool (py_min (Purchase.remaining_quantity_kg b) left) 0)
      eqn:E'.
    { exfalso. order_facts.
      destruct (py_min_cases (Purchase.remaining_quantity_kg b) left)
        as [[? U]|[? U]]; rewrite U in *; lra. }
    destruct (IH (left - py_min (Purchase.remaining_quantity_kg b) left))
      as (visited & rest & -> & R).
    exists (b :: visited), rest. simpl. now rewrite R.
Qed.

(** Every step comes from a batch of its grade. *)
Lemma step_origin targets purchases s :
  In s (optimal_mix (allocate targets purchases)) ->
  exists b, In b purchases
            /\ Purchase.alloy_type b = Step.alloy_type s
            /\ s = step_of (Step.alloy_type s) b (Step.quantity_used_kg s)
            /\ 0 < Step.quantity_used_kg s
            /\ Step.quantity_used_kg s <= Purchase.remaining_quantity_kg b.
Proof.
  rewrite allocate_eq. simpl. rewrite in_flat_map.
  intros ([alloy need] & _ & H). unfold steps_item in H. simpl in H.
  assert (A := steps_of_alloy _ _ _ _ H).
  apply steps_of_in in H. destruct H as (b & Hb & E & P & R).
  apply batches_of_in in Hb. exists b. rewrite A. tauto.
Qed.

(** ** Scenarios of the specification *)

Example scenario_A :
  allocate [line "steel" 100] [lot 1 "steel" 5 60; lot 2 "steel" 3 50]
  = mkResult
      [ Step.mk "steel" (Some 2%Z) 50 3 (50 * 3);
        Step.mk "steel" (Some 1%Z) (100 - 50) 5 ((100 - 50) * 5) ]
      [] (0 + 50 * 3 + (100 - 50) * 5).
Proof. vm_compute. reflexivity. Qed.

Example scenario_B :
  allocate [line "copper" 30] [lot 1 "copper" 2 10]
  = mkResult [ Step.mk "copper" (Some 1%Z) 10 2 (10 * 2) ]
      [ ToBuy.mk "copper" (30 - 10) ] (0 + 10 * 2).
Proof. vm_compute. reflexivity. Qed.

Example scenario_D :
  allocate [line "steel" 20] [] = mkResult [] [ ToBuy.mk "steel" (0 + 20) ] 0.
Proof. vm_compute. reflexivity. Qed.

Example scenario_A_session :
  fst (calculate_optimal_mix 2024 1 scenario_session)
  = allocate [line "steel" 100] [lot 1 "steel" 5 60; lot 2 "steel" 3 50].
Proof. vm_compute. reflexivity. Qed.

(** ** Empty demand *)

(** C9: with an empty demand sequence the engine returns no step, no
    shortfall line and a total cost of 0, whatever the lots are. *)
Theorem allocate_no_demand (purchases : list Purchase.t) :
  allocate [] purchases
  = {| optimal_mix := []; to_buy := []; total_cost_for_targets := 0 |}.
Proof. reflexivity. Qed.

(** ** Completeness, shortfall lines, irrelevant grades *)



(** C8: irrelevant grades.  A grade that is absent from the demand
    sequence, or whose summed demand is zero, has no step and no shortfall
    line in the result, whatever lots of that grade are supplied. *)
Theorem irrelevant_grades targets purchases alloy :
  ~ In alloy (map SalesTarget.alloy_type targets)
  \/ demand_for alloy targets == 0 ->
  steps_for alloy (allocate targets purchases) = []
  /\ shortfalls_for alloy (allocate targets purchases) = [].
Proof.
  intro H. rewrite steps_for_allocate, shortfalls_for_allocate.
  assert (Z : need_of targets alloy <= 0).
  { destruct H as [H|H].
    - unfold need_of, dict_val. rewrite dict_get_none; [lra|].
      now rewrite target_by_alloy_keys.
    - rewrite need_of_demand. lra. }
  destruct (steps_of_nonpos alloy (batches_of purchases alloy) _ Z) as [-> ->].
  split; [reflexivity|]. unfold shortfall_of.
  destruct (Qltb 0 _) eqn:E; [|reflexivity]. order_facts. lra.
Qed.

(** ** Steps and the lots they reference *)

Lemma same_lot_eq i j : same_lot i j = true <-> i = j.
Proof.
  destruct i, j; simpl; try (split; [discriminate|congruence]);
    [|tauto]. rewrite Z.eqb_eq. split; congruence.
Qed.


(** ** Conservation *)

(** With distinct identities, one lot answers to an identity. *)
Lemma lot_of_id purchases b :
  ids_distinct purchases -> In b purchases ->
  filter (fun x => same_lot (Purchase.id x) (Purchase.id b)) purchases = [b].
Proof.
  unfold ids_distinct.
  induction purchases as [|p purchases IH]; simpl; intros N H; [contradiction|].
  inversion N as [|? ? Hn N']; subst.
  destruct (same_lot (Purchase.id p) (Purchase.id b)) eqn:E.
  - apply same_lot_eq in E.
    assert (p = b).
    { apply (nodup_map_inj Purchase.id (p :: purchases)); simpl; auto. }
    subst p. f_equal. apply filter_none. intros x Hx.
    destruct (same_lot (Purchase.id x) (Purchase.id b)) eqn:E'; [|reflexivity].
    apply same_lot_eq in E'. exfalso. apply Hn. rewrite <- E'. now apply in_map.
  - destruct H as [->|H]; [|auto].
    assert (T : same_lot (Purchase.id b) (Purchase.id b) = true)
      by now apply same_lot_eq.
    congruence.
Qed.

(** What the steps of one loop take from the batches of one identity. *)
Lemma steps_on_bound alloy i batches : forall left,
  Forall (fun b => 0 <= Purchase.remaining_quantity_kg b) batches ->
  used_total (steps_on i (steps_of alloy batches left))
  <= Qsum (map Purchase.remaining_quantity_kg
             (filter (fun b => same_lot (Purchase.id b) i) batches)).
Proof.
  unfold used_total, steps_on.
  induction batches as [|b batches IH]; intros left F; simpl; [lra|].
  inversion F as [|? ? Hb F']; subst.
  assert (S : 0 <= Qsum (map Purchase.remaining_quantity_kg
                 (filter (fun b => same_lot (Purchase.id b) i) batches))).
  { apply Qsum_nonneg. rewrite Forall_map. rewrite Forall_forall in *.
    intros x Hx. apply filter_In in Hx. apply F', Hx. }
  destruct (Qle_bool left 0).
  { simpl. destruct (same_lot (Purchase.id b) i); simpl; lra. }
  destruct (Qle_bool (py_min (Purchase.remaining_quantity_kg b) left) 0).
  { specialize (IH left F').
    destruct (same_lot (Purchase.id b) i); simpl; lra. }
  simpl.
  specialize (IH (left - py_min (Purchase.remaining_quantity_kg b) left) F').
  destruct (same_lot (Purchase.id b) i); simpl; [|lra].
  destruct (py_min_cases (Purchase.remaining_quantity_kg b) left)
    as [[? E]|[? E]]; rewrite E in *; lra.
Qed.

(** C3: conservation.  With positive stock in every lot and distinct lot
    identities, a step uses no more than the remaining quantity of the one
    lot its identity designates, and the steps referencing a lot use
    together no more than its remaining quantity. *)
Theorem conservation targets purchases :
  lots_ok purchases -> ids_distinct purchases ->
  (forall s, In s (optimal_mix (allocate targets purchases)) ->
     exists b, In b purchases
       /\ Purchase.id b = Step.purchase_id s
       /\ Step.quantity_used_kg s <= Purchase.remaining_quantity_kg b
       /\ forall b', In b' purchases ->
            Purchase.id b' = Step.purchase_id s -> b' = b)
  /\ (forall b, In b purchases ->
        used_total (steps_on (Purchase.id b)
                      (optimal_mix (allocate targets purchases)))
        <= Purchase.remaining_quantity_kg b).
Proof.
  intros L N. split.
  - intros s Hs. destruct (step_origin _ _ _ Hs) as (b & Hb & _ & E & _ & R).
    exists b. rewrite E at 1. simpl. repeat split; auto.
    intros b' Hb' Hid. apply (nodup_map_inj Purchase.id purchases); auto.
    rewrite Hid, E. reflexivity.
  - intros b Hb. set (alloy := Purchase.alloy_type b).
    assert (Pos : Forall (fun p => 0 <= Purchase.remaining_quantity_kg p)
                    purchases).
    { eapply Forall_impl; [|exact L]. simpl. intros p [_ H]. lra. }
    unfold steps_on.
    rewrite (filter_filter_implied _
               (fun s => same_alloy alloy (Step.alloy_type s))).
    + fold (steps_for alloy (allocate targets purchases)).
      rewrite steps_for_allocate.
      eapply Qle_trans; [apply steps_on_bound|].
      * rewrite Forall_forall in *. intros p Hp.
        apply batches_of_in in Hp. apply Pos, Hp.
      * rewrite (Qsum_filter_perm _ _ _ _ (batches_of_perm purchases alloy)).
        unfold lots_of.
        eapply Qle_trans; [apply Qsum_filter_filter, Pos|].
        rewrite lot_of_id by assumption. simpl. lra.
    + intros s Hs E. apply same_lot_eq in E.
      destruct (step_origin _ _ _ Hs) as (b' & Hb' & A & Es & _).
      assert (b' = b).
      { apply (nodup_map_inj Purchase.id purchases); auto.
        rewrite <- E, Es. reflexivity. }
      subst b'. unfold same_alloy, alloy. rewrite A. apply String.eqb_refl.
Qed.

(** ** Cost minimality *)








(** ** The fields of a lot that the optimizer reads *)

Lemma agree_fields b1 b2 :
  agree b1 b2 ->
  Purchase.alloy_type b1 = Purchase.alloy_type b2
  /\ Purchase.price_per_kg b1 = Purchase.price_per_kg b2
  /\ Purchase.remaining_quantity_kg b1 = Purchase.remaining_quantity_kg b2
  /\ Purchase.id b1 = Purchase.id b2.
Proof.
  unfold agree, read_fields. intro H. inversion H. auto.
Qed.

Lemma lots_of_agree alloy l1 l2 :
  Forall2 agree l1 l2 -> Forall2 agree (lots_of alloy l1) (lots_of alloy l2).
Proof.
  unfold lots_of. induction 1 as [|x y l1 l2 A F IH]; simpl; [constructor|].
  destruct (agree_fields _ _ A) as (-> & _).
  destruct (same_alloy alloy (Purchase.alloy_type y)); auto.
Qed.

Lemma insert_by_agree x y l1 l2 :
  agree x y -> Forall2 agree l1 l2 ->
  Forall2 agree (insert_by Purchase.price_per_kg x l1)
    (insert_by Purchase.price_per_kg y l2).
Proof.
  intros A. induction 1 as [|x' y' l1 l2 A' F IH]; simpl.
  - auto.
  - destruct (agree_fields _ _ A) as (_ & -> & _).
    destruct (agree_fields _ _ A') as (_ & -> & _).
    destruct (Qltb _ _); auto.
Qed.

Lemma sorted_agree l1 l2 :
  Forall2 agree l1 l2 ->
  Forall2 agree (sorted Purchase.price_per_kg l1)
    (sorted Purchase.price_per_kg l2).
Proof.
  induction 1; simpl; [constructor|]. now apply insert_by_agree.
Qed.

Lemma loop_agree alloy l1 l2 :
  Forall2 agree l1 l2 ->
  forall left,
    steps_of alloy l1 left = steps_of alloy l2 left
    /\ left_after l1 left = left_after l2 left.
Proof.
  induction 1 as [|x y l1 l2 A F IH]; intro left; simpl; [auto|].
  destruct (agree_fields _ _ A) as (_ & P & R & I).
  unfold step_of. rewrite P, R, I.
  destruct (Qle_bool left 0); [auto|].
  destruct (Qle_bool _ 0); [apply IH|].
  destruct (IH (left - py_min (Purchase.remaining_quantity_kg y) left))
    as [-> ->].
  auto.
Qed.

(** C10: the optimizer reads four fields of a lot.  Two lot sequences
    that agree, lot by lot, on the grade, the unit cost, the remaining
    quantity and the identity give the same result for the same demand,
    whatever their purity, purchased quantity, date, supplier and notes. *)
Theorem unread_fields targets purchases1 purchases2 :
  map read_fields purchases1 = map read_fields purchases2 ->
  allocate targets purchases1 = allocate targets purchases2.
Proof.
  intro H. apply map_eq_Forall2 in H. fold agree in H.
  assert (Item : forall item,
             steps_item purchases1 item = steps_item purchases2 item
             /\ shortfall_item purchases1 item = shortfall_item purchases2 item).
  { intros [alloy need]. unfold steps_item, shortfall_item, batches_of. simpl.
    destruct (loop_agree alloy _ _
                (sorted_agree _ _ (lots_of_agree alloy _ _ H)) need)
      as [-> ->].
    auto. }
  rewrite !allocate_eq.
  rewrite (flat_map_ext _ _ (fun item => proj1 (Item item))).
  rewrite (flat_map_ext _ _ (fun item => proj2 (Item item))).
  reflexivity.
Qed.

(** ** The order of the steps of a grade *)

(** C4, as stated, fails: of two lots of equal unit cost supplied with
    the higher identity first, the step of the higher identity comes first,
    so the steps are not ordered by unit cost and then identity. *)
Lemma tie_break_not_by_identity :
  map step_ref (steps_for "steel" (allocate tied_demand tied_lots))
  = [(Some 2%Z, 5); (Some 1%Z, 5)]
  /\ ~ StronglySorted by_cost_then_identity
         (steps_for "steel" (allocate tied_demand tied_lots)).
Proof.
  split; [reflexivity|].
  intro S. inversion S as [|s1 l S' F E]. subst.
  inversion F as [|s2 l' B F' E']. subst.
  destruct B as [B|[_ B]].
  - vm_compute in B. discriminate.
  - vm_compute in B. discriminate.
Qed.

(** C4, amended: the steps of a grade follow, lot by lot, the beginning
    of the grade's lots arranged by ascending unit cost, lots of equal unit
    cost staying in the order in which they were supplied. *)
Theorem lot_ordering targets purchases alloy :
  lots_ok purchases ->
  exists visited rest,
    visited ++ rest = sorted Purchase.price_per_kg (lots_of alloy purchases)
    /\ map step_ref (steps_for alloy (allocate targets purchases))
       = map lot_ref visited
    /\ Permutation (visited ++ rest) (lots_of alloy purchases)
    /\ StronglySorted (key_le Purchase.price_per_kg) (visited ++ rest)
    /\ forall p,
         filter (fun b => Qeq_bool (Purchase.price_per_kg b) p) (visited ++ rest)
         = filter (fun b => Qeq_bool (Purchase.price_per_kg b) p)
             (lots_of alloy purchases).
Proof.
  intro L. rewrite steps_for_allocate.
  destruct (steps_of_prefix alloy (batches_of purchases alloy)) with
    (left := need_of targets alloy) as (visited & rest & E & R).
  { eapply Forall_impl; [|apply batches_of_ok, L]. simpl. tauto. }
  exists visited, rest. rewrite <- E. unfold batches_of in *.
  repeat split.
  - exact R.
  - apply sorted_perm.
  - apply sorted_ascending.
  - intro p. apply sorted_stable.
Qed.

(** ** The session is read, not written *)

Lemma for_each_next {X St} (step : St -> X -> St)
    (body : St -> X -> DB (flow St)) (s : Session) l :
  (forall st x, body st x s = (Next (step st x), s)) ->
  forall st, for_each l st body s = (fold_left step l st, s).
Proof.
  intro H. induction l as [|x l IH]; intro st; simpl; [reflexivity|].
  unfold bind. rewrite H. apply IH.
Qed.

Lemma map_db_run {X Y} (f : X -> DB Y) (g : X -> Y) (s : Session) l :
  (forall x, f x s = (g x, s)) -> map_db f l s = (map g l, s).
Proof.
  intro H. induction l as [|x l IH]; simpl; [reflexivity|].
  unfold bind. now rewrite H, IH.
Qed.

Lemma fold_left_on_map {X Y St} (f : St -> Y -> St) (g : X -> Y) l :
  forall st, fold_left f (map g l) st = fold_left (fun st x => f st (g x)) l st.
Proof.
  induction l as [|x l IH]; intro st; simpl; [reflexivity|]. apply IH.
Qed.

Lemma filter_on_map {X Y} (f : Y -> bool) (g : X -> Y) l :
  filter f (map g l) = map g (filter (fun x => f (g x)) l).
Proof.
  induction l as [|x l IH]; simpl; [reflexivity|].
  destruct (f (g x)); simpl; now rewrite IH.
Qed.

(** Sorting on keys computed beforehand is sorting on the key function. *)
Lemma sorted_decorated {X} (k : X -> Q) l :
  map snd (sorted fst (combine (map k l) l)) = sorted k l.
Proof.
  assert (E : combine (map k l) l = map (fun x => (k x, x)) l).
  { induction l as [|x l IH]; simpl; [reflexivity|]. now rewrite IH. }
  rewrite E, <- (sorted_map fst (fun x => (k x, x))), map_map. simpl.
  apply map_id.
Qed.

Lemma sorted_db_run {X} (key : X -> DB Q) (k : X -> Q) (s : Session) l :
  (forall x, key x s = (k x, s)) -> sorted_db l key s = (sorted k l, s).
Proof.
  intro H. unfold sorted_db, bind. rewrite (map_db_run key k s l H).
  unfold ret. now rewrite sorted_decorated.
Qed.

(** The loop over the batches, on references and on rows. *)
Lemma for_each_batch alloy (s : Session) batches : forall left result,
  for_each batches (left, result) (do_batch alloy) s
  = (use_batches alloy (map (purchase_at s) batches) left result, s).
Proof.
  induction batches as [|b batches IH]; intros left result; simpl;
    [reflexivity|].
  unfold bind, do_batch, purchase_attr, ret.
  destruct (Qle_bool left 0); [reflexivity|].
  destruct (Qle_bool _ 0); apply IH.
Qed.

Lemma do_alloy_run (s : Session) refs inv result item :
  (forall alloy,
     map (purchase_at s) (dict_get_list refs alloy) = dict_get_list inv alloy) ->
  do_alloy refs result item s = (Next (for_alloy inv result item), s).
Proof.
  intro H. destruct item as [alloy need]. unfold do_alloy, for_alloy, bind.
  rewrite (sorted_db_run _ (fun o => Purchase.price_per_kg (purchase_at s o))).
  - rewrite for_each_batch.
    rewrite (sorted_map Purchase.price_per_kg (purchase_at s)), H.
    destruct (use_batches _ _ _ _). reflexivity.
  - reflexivity.
Qed.

(** The references grouped by [do_purchase] designate the rows grouped by
    [add_purchase]. *)
Lemma inventory_refs (s : Session) purchases alloy :
  map (purchase_at s)
    (dict_get_list
       (fold_left
          (fun d p =>
             dict_update [] (fun l => l ++ [p])
               (Purchase.alloy_type (purchase_at s p)) d)
          purchases [])
       alloy)
  = dict_get_list (inventory (map (purchase_at s) purchases)) alloy.
Proof.
  rewrite inventory_get. unfold lots_of. rewrite filter_on_map.
  now rewrite (grouped_get (fun p => Purchase.alloy_type (purchase_at s p))).
Qed.

(** [calculate_optimal_mix] returns what [allocate] makes of the rows
    selected, and the session as it found it. *)
Theorem calculate_optimal_mix_allocate (year month : Z) (s : Session) :
  calculate_optimal_mix year month s
  = (allocate (targets_of year month s) (stock_of s), s).
Proof.
  unfold calculate_optimal_mix, bind, select_targets, select_purchases.
  rewrite (for_each_next (fun d t => add_target d (target_at s t)))
    by reflexivity.
  rewrite (for_each_next
             (fun d p =>
                dict_update [] (fun l => l ++ [p])
                  (Purchase.alloy_type (purchase_at s p)) d))
    by reflexivity.
  rewrite (for_each_next (for_alloy (inventory (stock_of s)))).
  - unfold allocate, target_by_alloy, targets_of.
    now rewrite fold_left_on_map.
  - intros result item. apply do_alloy_run. intro alloy.
    apply inventory_refs.
Qed.


(** An assignment to an attribute, for comparison, does change the
    session. *)
Lemma set_remaining_quantity_kg_writes (o : ref) (q : Q) (s : Session) :
  Purchase.remaining_quantity_kg
    (purchase_at (snd (set_remaining_quantity_kg o q s)) o) = q.
Proof.
  simpl. now rewrite Nat.eqb_refl.
Qed.

(** C7: planning does not write.  [calculate_optimal_mix] hands back
    the session it was given: the tables and every purchase and sales target
    object are as they were, every field of them, the remaining quantities
    included.  What the loop decrements is its own counter [left]. *)
Theorem inputs_not_mutated (year month : Z) (s : Session) :
  snd (calculate_optimal_mix year month s) = s
  /\ (forall o,
        purchase_at (snd (calculate_optimal_mix year month s)) o
        = purchase_at s o)
  /\ (forall o,
        target_at (snd (calculate_optimal_mix year month s)) o
        = target_at s o).
Proof.
  rewrite calculate_optimal_mix_allocate. simpl. auto.
Qed.

(** ** The theorems at work on sample inputs *)

(** Closed facts about explicit quantities and identities. *)
Ltac by_evaluation :=
  repeat match goal with
    | |- _ /\ _ => split
    | |- Forall _ _ => constructor
    | |- NoDup _ => constructor
    | |- ~ _ => vm_compute; intuition discriminate
    | |- (_ <= _)%Q => vm_compute; discriminate
    | |- (_ < _)%Q => reflexivity
    | |- (_ == _)%Q => reflexivity
    | |- _ = _ => reflexivity
    end.

Lemma conservation_witness :
  (forall s, In s (optimal_mix (allocate demo_demand demo_lots)) ->
     exists b, In b demo_lots
       /\ Purchase.id b = Step.purchase_id s
       /\ Step.quantity_used_kg s <= Purchase.remaining_quantity_kg b
       /\ forall b', In b' demo_lots ->
            Purchase.id b' = Step.purchase_id s -> b' = b)
  /\ (forall b, In b demo_lots ->
        used_total (steps_on (Purchase.id b)
                      (optimal_mix (allocate demo_demand demo_lots)))
        <= Purchase.remaining_quantity_kg b).
Proof.
  apply (conservation demo_demand demo_lots);
    unfold lots_ok, ids_distinct, demo_lots; simpl; by_evaluation.
Defined.

Lemma lot_ordering_witness :
  exists visited rest,
    visited ++ rest = sorted Purchase.price_per_kg (lots_of "steel" tied_lots)
    /\ map step_ref (steps_for "steel" (allocate tied_demand tied_lots))
       = map lot_ref visited
    /\ Permutation (visited ++ rest) (lots_of "steel" tied_lots)
    /\ StronglySorted (key_le Purchase.price_per_kg) (visited ++ rest)
    /\ forall p,
         filter (fun b => Qeq_bool (Purchase.price_per_kg b) p) (visited ++ rest)
         = filter (fun b => Qeq_bool (Purchase.price_per_kg b) p)
             (lots_of "steel" tied_lots).
Proof.
  apply (lot_ordering tied_demand tied_lots "steel");
    unfold lots_ok, tied_lots; by_evaluation.
Defined.


Lemma irrelevant_grades_witness :
  (steps_for "tin" (allocate demo_demand demo_lots) = []
   /\ shortfalls_for "tin" (allocate demo_demand demo_lots) = [])
  /\ (steps_for "zinc" (allocate demo_demand demo_lots) = []
      /\ shortfalls_for "zinc" (allocate demo_demand demo_lots) = []).
Proof.
  split.
  - apply (irrelevant_grades demo_demand demo_lots "tin").
    left. by_evaluation.
  - apply (irrelevant_grades demo_demand demo_lots "zinc").
    right. by_evaluation.
Defined.

Lemma unread_fields_witness :
  demo_lots <> demo_lots'
  /\ allocate demo_demand demo_lots = allocate demo_demand demo_lots'.
Proof.
  split; [intro H; discriminate H|].
  apply (unread_fields demo_demand demo_lots demo_lots'). reflexivity.
Defined.

(** * The optimizer on binary64 *)

(** ** Comparisons of floats are comparisons of their values *)














(** ** A run without rounding is the run on the values *)













Lemma finite_lots_all l :
  forallb finite_lot l = true ->
  Forall (fun b => finite_lot b = true) l.
Proof. intro F. apply Forall_forall. apply forallb_forall, F. Qed.







(** ** What is observed of results with equal amounts *)







(** ** Completeness, shortfall lines and cost minimality of the float code *)










(** * The rest of the code *)

(** ** Grouping into a dictionary *)


Lemma dict_get_in {V} (d : dict V) k v :
  NoDup (keys d) -> In (k, v) d -> dict_get d k = Some v.
Proof.
  induction d as [|[k0 v0] d IH]; simpl; intros N H; [contradiction|].
  inversion N as [|? ? Hn N']; subst.
  destruct H as [H|H].
  - inversion H; subst. rewrite String.eqb_refl. reflexivity.
  - destruct (String.eqb k k0) eqn:E; [|auto].
    apply String.eqb_eq in E. subst k0.
    exfalso. apply Hn. change k with (fst (k, v)). apply in_map, H.
Qed.

Lemma keys_update_order {V} (dflt : V) f k (d : dict V) :
  keys (dict_update dflt f k d)
  = if existsb (String.eqb k) (keys d) then keys d else keys d ++ [k].
Proof.
  unfold keys. induction d as [|[k0 v0] d IH]; simpl; [reflexivity|].
  destruct (String.eqb k k0) eqn:E; simpl; [reflexivity|].
  rewrite IH. destruct (existsb (String.eqb k) (map fst d)); reflexivity.
Qed.

Section Grouping.
Context {X V : Type} (key : X -> string) (dflt : X -> V) (upd : X -> V -> V).




(** A property of keyed entries that each update keeps. *)
Lemma group_invariant (P : string -> V -> Prop) l :
  (forall x, P (key x) (upd x (dflt x))) ->
  (forall x v, P (key x) v -> P (key x) (upd x v)) ->
  forall d,
    (forall k v, In (k, v) d -> P k v) ->
    forall k v, In (k, v) (fold_left (group_step key dflt upd) l d) -> P k v.
Proof.
  intros P0 PU. induction l as [|x l IH]; intros d Hd; simpl; [exact Hd|].
  apply IH. clear IH. unfold group_step.
  induction d as [|[k0 v0] d IHd]; simpl.
  - intros k v [H|[]]. inversion H; subst. apply P0.
  - destruct (String.eqb (key x) k0) eqn:E.
    + apply String.eqb_eq in E. subst k0. intros k v [H|H].
      * inversion H; subst. apply PU, Hd. now left.
      * apply Hd. now right.
    + intros k v [H|H].
      * apply Hd. now left.
      * apply IHd; [|exact H]. intros k' v' H'. apply Hd. now right.
Qed.

(** The keys come in the order in which they first occur. *)
Lemma group_order l : forall d,
  keys (fold_left (group_step key dflt upd) l d)
  = keys d
    ++ filter (fun k => negb (existsb (String.eqb k) (keys d)))
         (first_seen (map key l)).
Proof.
  induction l as [|x l IH]; intro d; simpl; [now rewrite app_nil_r|].
  rewrite IH. clear IH.
  assert (K := keys_update_order (dflt x) (upd x) (key x) d).
  fold (group_step key dflt upd d x) in K.
  rewrite K. clear K.
  assert (F : forall (f g : string -> bool) (m : list string),
             filter f (filter g m) = filter (fun y => g y && f y) m).
  { intros f g m. induction m as [|y m IHm]; simpl; [reflexivity|].
    destruct (g y); simpl; [destruct (f y)|]; now rewrite IHm. }
  rewrite !F.
  destruct (existsb (String.eqb (key x)) (keys d)) eqn:E; simpl.
  - f_equal. apply filter_ext. intro y.
    destruct (String.eqb y (key x)) eqn:Ey; simpl; [|reflexivity].
    apply String.eqb_eq in Ey. subst y. now rewrite E.
  - rewrite <- app_assoc. simpl. f_equal. f_equal. apply filter_ext. intro y.
    rewrite existsb_app. simpl. rewrite orb_false_r.
    rewrite negb_orb, andb_comm. reflexivity.
Qed.

End Grouping.

(** ** The inventory summary *)

Lemma inventory_summary_run (s : Session) :
  Main.inventory_summary s = (summary_of (stock_of s), s).
Proof.
  unfold Main.inventory_summary, bind, select_purchases.
  rewrite (map_db_run _
             (fun o => Purchase.remaining_quantity_kg (purchase_at s o)))
    by reflexivity.
  rewrite (map_db_run _
             (fun o => Purchase.remaining_quantity_kg (purchase_at s o)
                       * Purchase.price_per_kg (purchase_at s o)))
    by reflexivity.
  rewrite (for_each_next (fun d o => add_to_summary d (purchase_at s o)))
    by reflexivity.
  unfold ret, summary_of, stock_of.
  now rewrite fold_left_on_map, !map_map.
Qed.

(** The records of [by_alloy] are grouped by alloy. *)
Lemma add_to_summary_group :
  add_to_summary = group_step Purchase.alloy_type empty_record add_lot.
Proof. reflexivity. Qed.

Lemma summary_tags purchases k rec :
  In (k, rec) (fold_left add_to_summary purchases []) ->
  AlloyRecord.alloy_type rec = k.
Proof.
  rewrite add_to_summary_group.
  apply (group_invariant Purchase.alloy_type empty_record add_lot
           (fun k rec => AlloyRecord.alloy_type rec = k)).
  - reflexivity.
  - intros p v H. exact H.
  - intros k' v' [].
Qed.

Lemma summary_keys purchases :
  map AlloyRecord.alloy_type (map snd (fold_left add_to_summary purchases []))
  = first_seen (map Purchase.alloy_type purchases).
Proof.
  rewrite map_map.
  rewrite (map_ext_in _ fst).
  - rewrite add_to_summary_group.
    fold (keys (fold_left
                  (group_step Purchase.alloy_type empty_record add_lot)
                  purchases [])).
    rewrite group_order. simpl. apply filter_all. reflexivity.
  - intros [k rec] H. simpl. eapply summary_tags, H.
Qed.


Lemma first_seen_in l x : In x (first_seen l) <-> In x l.
Proof.
  induction l as [|y l IH]; simpl; [tauto|].
  rewrite filter_In, IH, negb_true_iff, String.eqb_neq.
  destruct (String.eqb_spec x y) as [->|N]; intuition.
Qed.

Lemma first_seen_nodup l : NoDup (first_seen l).
Proof.
  induction l as [|y l IH]; simpl; constructor.
  - rewrite filter_In, negb_true_iff, String.eqb_neq. tauto.
  - now apply NoDup_filter.
Qed.


(** X1: The alloys that [inventory_summary] lists are those of the purchases
    with stock left, once each, in the order in which the table first shows
    them. *)
Theorem summary_alloys (s : Session) :
  map AlloyRecord.alloy_type (Summary.by_alloy (fst (Main.inventory_summary s)))
  = first_seen (map Purchase.alloy_type (stock_of s))
  /\ NoDup (map AlloyRecord.alloy_type
              (Summary.by_alloy (fst (Main.inventory_summary s))))
  /\ forall alloy,
       In alloy (map AlloyRecord.alloy_type
                   (Summary.by_alloy (fst (Main.inventory_summary s))))
       <-> exists o, In o (purchases_table s)
             /\ Purchase.alloy_type (purchase_at s o) = alloy
             /\ 0 < Purchase.remaining_quantity_kg (purchase_at s o).
Proof.
  rewrite inventory_summary_run. simpl. rewrite summary_keys.
  split; [reflexivity|]. split; [apply first_seen_nodup|].
  intro alloy. rewrite first_seen_in, in_map_iff. unfold stock_of.
  split.
  - intros (p & A & H). apply in_map_iff in H. destruct H as (o & <- & H).
    apply filter_In in H. destruct H as [H R]. apply Qltb_true in R.
    exists o. auto.
  - intros (o & H & A & R). exists (purchase_at s o). split; [exact A|].
    apply in_map, filter_In. split; [exact H|]. now apply Qltb_true.
Qed.


(** ** More on the plan *)

Lemma add_target_group :
  add_target
  = group_step SalesTarget.alloy_type (fun _ => 0)
      (fun t v => v + SalesTarget.target_quantity_kg t).
Proof. reflexivity. Qed.

(** The grades of [target_by_alloy], in the order of the loop. *)
Lemma target_by_alloy_order targets :
  keys (target_by_alloy targets)
  = first_seen (map SalesTarget.alloy_type targets).
Proof.
  unfold target_by_alloy. rewrite add_target_group, group_order.
  simpl. apply filter_all. reflexivity.
Qed.

Lemma flat_map_keys {V Y} (g : string * V -> list Y) (h : string -> list Y)
    (d : dict V) :
  (forall item, In item d -> g item = h (fst item)) ->
  flat_map g d = flat_map h (keys d).
Proof.
  induction d as [|item d IH]; simpl; intro H; [reflexivity|].
  rewrite (H item (or_introl eq_refl)), IH; [reflexivity|].
  intros item' H'. apply H. now right.
Qed.

Lemma target_by_alloy_item targets alloy need :
  In (alloy, need) (target_by_alloy targets) -> need = need_of targets alloy.
Proof.
  intro H. unfold need_of, dict_val.
  now rewrite (dict_get_in _ _ _ (target_by_alloy_nodup targets) H).
Qed.

(** X4: The result is laid out grade by grade, the grades in the order in
    which the demand first names them. *)
Theorem plan_by_grade targets purchases :
  optimal_mix (allocate targets purchases)
  = flat_map (fun alloy => steps_for alloy (allocate targets purchases))
      (first_seen (map SalesTarget.alloy_type targets))
  /\ to_buy (allocate targets purchases)
     = flat_map (fun alloy => shortfalls_for alloy (allocate targets purchases))
         (first_seen (map SalesTarget.alloy_type targets)).
Proof.
  rewrite <- target_by_alloy_order. split.
  - rewrite allocate_eq at 1. simpl. apply flat_map_keys.
    intros [alloy need] H. rewrite steps_for_allocate.
    unfold steps_item. simpl. now rewrite (target_by_alloy_item _ _ _ H).
  - rewrite allocate_eq at 1. simpl. apply flat_map_keys.
    intros [alloy need] H. rewrite shortfalls_for_allocate.
    unfold shortfall_item. simpl. now rewrite (target_by_alloy_item _ _ _ H).
Qed.

Lemma last_split {Y} (x : Y) l init last :
  x :: l = init ++ [last] ->
  (init = [] /\ l = [] /\ x = last)
  \/ exists init', init = x :: init' /\ l = init' ++ [last].
Proof.
  destruct init as [|y init]; simpl; intro H; inversion H; subst.
  - left. auto.
  - right. eauto.
Qed.

Lemma steps_of_whole alloy batches : forall left init last,
  steps_of alloy batches left = init ++ [last] ->
  forall s, In s init ->
    exists b, In b batches
              /\ s = step_of alloy b (Purchase.remaining_quantity_kg b).
Proof.
  induction batches as [|b batches IH]; intros left init last; simpl.
  - intro H. destruct init; discriminate.
  - destruct (Qle_bool left 0); [intro H; destruct init; discriminate|].
    destruct (Qle_bool (py_min (Purchase.remaining_quantity_kg b) left) 0).
    + intros H s Hs. destruct (IH _ _ _ H s Hs) as (b' & ? & ?). eauto.
    + intros H s Hs. apply last_split in H.
      destruct H as [(-> & _)|(init' & -> & H)]; [contradiction|].
      destruct Hs as [<-|Hs].
      * exists b. split; [now left|].
        destruct (py_min_cases (Purchase.remaining_quantity_kg b) left)
          as [[C U]|[C U]]; rewrite U in *; [|reflexivity].
        exfalso.
        destruct (steps_of_nonpos alloy batches (left - left)) as [Z _];
          [lra|].
        rewrite Z in H. destruct init'; discriminate.
      * destruct (IH _ _ _ H s Hs) as (b' & ? & ?). eauto.
Qed.

(** X5: A grade takes its lots whole, except the last one it touches: every
    step of a grade but the last uses all that remains of its lot. *)
Theorem whole_lots_but_last targets purchases alloy init last :
  steps_for alloy (allocate targets purchases) = init ++ [last] ->
  forall s, In s init ->
    exists b, In b purchases
      /\ Purchase.alloy_type b = alloy
      /\ Purchase.id b = Step.purchase_id s
      /\ Step.quantity_used_kg s = Purchase.remaining_quantity_kg b.
Proof.
  rewrite steps_for_allocate. intros H s Hs.
  destruct (steps_of_whole _ _ _ _ _ H s Hs) as (b & Hb & ->).
  apply batches_of_in in Hb. exists b. simpl. tauto.
Qed.

Lemma add_targets_same_entry alloy targets : forall d d',
  dict_get d alloy = dict_get d' alloy ->
  dict_get (fold_left add_target targets d) alloy
  = dict_get
      (fold_left add_target
         (filter (fun t => same_alloy alloy (SalesTarget.alloy_type t)) targets)
         d')
      alloy.
Proof.
  induction targets as [|t targets IH]; intros d d' E; simpl; [exact E|].
  unfold same_alloy.
  destruct (String.eqb (SalesTarget.alloy_type t) alloy) eqn:A; simpl.
  - apply IH. unfold add_target. rewrite !dict_get_update.
    rewrite String.eqb_sym, A. unfold dict_val.
    apply String.eqb_eq in A. rewrite A, E. reflexivity.
  - apply IH. unfold add_target at 1. rewrite dict_get_update.
    now rewrite String.eqb_sym, A.
Qed.

Lemma to_buy_alloy targets purchases line :
  In line (to_buy (allocate targets purchases)) ->
  In (ToBuy.alloy_type line) (map SalesTarget.alloy_type targets).
Proof.
  rewrite allocate_eq. simpl. rewrite in_flat_map.
  intros ([alloy need] & H & L). unfold shortfall_item, shortfall_of in L.
  simpl in L. destruct (Qltb 0 _); [|contradiction].
  destruct L as [<-|[]]. simpl. apply target_by_alloy_keys.
  change alloy with (fst (alloy, need)). apply in_map, H.
Qed.

(** X6: Grades do not interact: what the result holds for a grade is the
    whole result of the run on the demand lines and the lots of that grade
    alone. *)
Theorem grade_independence targets purchases alloy :
  steps_for alloy (allocate targets purchases)
  = optimal_mix
      (allocate
         (filter (fun t => same_alloy alloy (SalesTarget.alloy_type t)) targets)
         (lots_of alloy purchases))
  /\ shortfalls_for alloy (allocate targets purchases)
     = to_buy
         (allocate
            (filter (fun t => same_alloy alloy (SalesTarget.alloy_type t))
               targets)
            (lots_of alloy purchases)).
Proof.
  set (targets' :=
         filter (fun t => same_alloy alloy (SalesTarget.alloy_type t)) targets).
  set (lots := lots_of alloy purchases).
  assert (N : need_of targets' alloy = need_of targets alloy).
  { unfold need_of, dict_val, target_by_alloy, targets'.
    now rewrite <- (add_targets_same_entry alloy targets [] []). }
  assert (B : batches_of lots alloy = batches_of purchases alloy).
  { unfold batches_of, lots, lots_of. f_equal.
    rewrite <- filter_filter_implied; auto. }
  split.
  - rewrite steps_for_allocate, <- N, <- B, <- steps_for_allocate.
    unfold steps_for. apply filter_all. intros s Hs.
    destruct (step_origin _ _ _ Hs) as (b & Hb & A & _).
    apply filter_In in Hb. rewrite <- A. apply Hb.
  - rewrite shortfalls_for_allocate, <- N, <- B, <- shortfalls_for_allocate.
    unfold shortfalls_for. apply filter_all. intros l Hl.
    apply to_buy_alloy, in_map_iff in Hl. destruct Hl as (t & <- & Ht).
    apply filter_In in Ht. apply Ht.
Qed.

(** ** The plan against the inventory *)


Lemma optimize_run (year month : Z) (s : Session) :
  Main.optimize year month s
  = (allocate (targets_of year month s) (stock_of s), s).
Proof.
  unfold Main.optimize, bind. now rewrite calculate_optimal_mix_allocate.
Qed.

(** ** Rows and references *)

Lemma new_ref_fresh table : ~ In (new_ref table) table.
Proof.
  assert (B : forall o, In o table -> (o <= fold_right Nat.max 0 table)%nat).
  { induction table as [|x table IH]; simpl; [tauto|].
    intros o [<-|H].
    - apply Nat.le_max_l.
    - eapply Nat.le_trans; [apply IH, H|apply Nat.le_max_r]. }
  intro H. apply B in H. unfold new_ref in H.
  revert H. apply Nat.nle_succ_diag_l.
Qed.

Lemma find_by_key {K} (f : ref -> K) (same : K -> K -> bool) (k : K) table :
  (forall a b, same a b = true <-> a = b) ->
  (~ In k (map f table) -> find (fun o => same (f o) k) table = None)
  /\ (In k (map f table) ->
      exists o, find (fun o => same (f o) k) table = Some o
                /\ In o table /\ f o = k).
Proof.
  intro S. induction table as [|x table [IH0 IH1]]; simpl.
  - split; [reflexivity|tauto].
  - destruct (same (f x) k) eqn:E.
    + apply S in E. split; [tauto|]. intros _. exists x. auto.
    + assert (f x <> k).
      { intro H. apply S in H. congruence. }
      split.
      * intro N. apply IH0. tauto.
      * intros [H'|H']; [contradiction|].
        destruct (IH1 H') as (o & ? & ? & ?). exists o. auto.
Qed.

Lemma filter_on_key {K} (f : ref -> K) (g : ref -> bool) (h : K -> bool)
    table :
  (forall o, In o table -> g o = h (f o)) ->
  map f (filter g table) = filter h (map f table).
Proof.
  intro H. induction table as [|x table IH]; simpl; [reflexivity|].
  rewrite (H x (or_introl eq_refl)).
  destruct (h (f x)); simpl; rewrite IH; auto;
    intros o Ho; apply H; now right.
Qed.

Lemma filter_fresh table o :
  ~ In o table ->
  filter (fun o' => negb (Nat.eqb o' o)) (table ++ [o]) = table.
Proof.
  intro N. rewrite filter_app. simpl. rewrite Nat.eqb_refl. simpl.
  rewrite app_nil_r. apply filter_all. intros o' H.
  apply negb_true_iff, Nat.eqb_neq. congruence.
Qed.

(** ** The endpoints on purchases *)

Lemma get_purchase_none purchase_id (s : Session) :
  ~ In (Some purchase_id) (purchase_ids s) ->
  get_purchase purchase_id s = (None, s).
Proof.
  intro N. unfold get_purchase. f_equal.
  apply (find_by_key (fun o => Purchase.id (purchase_at s o)) same_lot);
    [apply same_lot_eq|].
  unfold purchase_ids, all_purchases in N. now rewrite map_map in N.
Qed.

Lemma get_purchase_some purchase_id (s : Session) :
  In (Some purchase_id) (purchase_ids s) ->
  exists o, get_purchase purchase_id s = (Some o, s)
            /\ In o (purchases_table s)
            /\ Purchase.id (purchase_at s o) = Some purchase_id.
Proof.
  intro H. unfold purchase_ids, all_purchases in H. rewrite map_map in H.
  destruct (proj2 (find_by_key (fun o => Purchase.id (purchase_at s o))
                     same_lot (Some purchase_id) (purchases_table s)
                     same_lot_eq) H) as (o & F & I & E).
  exists o. unfold get_purchase. now rewrite F.
Qed.

(** The loop of [setattr] writes to one object. *)
Lemma setattr_purchase_loop o items : forall s : Session,
  exists s',
    for_each items tt
      (fun st item => u <- setattr_purchase o item ;; ret (Next u)) s
    = (tt, s')
    /\ purchases_table s' = purchases_table s
    /\ targets_table s' = targets_table s
    /\ target_at s' = target_at s
    /\ forall o',
         purchase_at s' o'
         = if Nat.eqb o' o then fold_left purchase_with items (purchase_at s o')
           else purchase_at s o'.
Proof.
  induction items as [|item items IH]; intro s.
  - exists s. repeat split. intro o'. now destruct (Nat.eqb o' o).
  - cbn [for_each]. unfold bind at 1. unfold bind at 1.
    unfold setattr_purchase at 1. unfold ret at 1.
    match goal with
    | |- context [for_each items tt _ ?s1] =>
        destruct (IH s1) as (s' & R & T & T' & A' & A)
    end.
    exists s'. rewrite R. cbn [purchases_table targets_table target_at] in *.
    repeat split; try assumption.
    intro o'. rewrite A. cbn [purchase_at fold_left].
    now destruct (Nat.eqb o' o).
Qed.

(** The session that [update_purchase] leaves when the row is found. *)
Lemma update_purchase_run purchase_id data (s : Session) o :
  get_purchase purchase_id s = (Some o, s) ->
  exists s',
    Main.update_purchase purchase_id (Some data) s
    = (Returns (updated_purchase data (purchase_at s o)), s')
    /\ purchases_table s' = purchases_table s
    /\ targets_table s' = targets_table s
    /\ target_at s' = target_at s
    /\ forall o',
         purchase_at s' o'
         = if Nat.eqb o' o then updated_purchase data (purchase_at s o)
           else purchase_at s o'.
Proof.
  intro G. unfold Main.update_purchase. unfold bind at 1. rewrite G.
  unfold bind at 1.
  destruct (setattr_purchase_loop o (purchase_items data) s)
    as (s1 & R & T & T' & A' & A).
  rewrite R. unfold bind, set_remaining_quantity_kg, commit, ret, purchase_attr.
  cbn [purchase_at purchases_table targets_table target_at].
  rewrite Nat.eqb_refl, A, Nat.eqb_refl.
  eexists. split; [reflexivity|].
  cbn [purchase_at purchases_table targets_table target_at].
  repeat split; try assumption.
  intro o'. rewrite A. destruct (Nat.eqb o' o) eqn:E; [|reflexivity].
  apply Nat.eqb_eq in E. subst o'. reflexivity.
Qed.

Lemma purchase_missing purchase_id data (s : Session) :
  ~ In (Some purchase_id) (purchase_ids s) ->
  Main.update_purchase purchase_id data s
  = (Raises (HTTPException 404 "Purchase not found"), s)
  /\ Main.delete_purchase purchase_id s
     = (Raises (HTTPException 404 "Not found"), s).
Proof.
  intro N. unfold Main.update_purchase, Main.delete_purchase, bind.
  now rewrite (get_purchase_none _ _ N).
Qed.

(** X8: A purchase that the table does not hold can be neither updated nor
    deleted: for a key that the database can look for, both requests end in
    a 404 and leave the session as it was. *)
Theorem purchase_not_found purchase_id data (s : Session) :
  int64 purchase_id = true ->
  ~ In (Some purchase_id) (purchase_ids s) ->
  Main.update_purchase purchase_id data s
  = (Raises (HTTPException 404 "Purchase not found"), s)
  /\ Main.delete_purchase purchase_id s
     = (Raises (HTTPException 404 "Not found"), s).
Proof.
  intros _ N. split; apply (purchase_missing purchase_id data s N).
Qed.

(** X9: An update without body of a purchase that exists raises
    [AttributeError], when nothing has been written yet. *)
Theorem update_purchase_without_body purchase_id (s : Session) :
  In (Some purchase_id) (purchase_ids s) ->
  Main.update_purchase purchase_id None s = (Raises AttributeError, s).
Proof.
  intro H. destruct (get_purchase_some _ _ H) as (o & G & _).
  unfold Main.update_purchase, bind. now rewrite G.
Qed.

(** X10: [update_purchase] replaces the fields of the purchase by those of the
    body, keeps its primary key, and resets its remaining quantity to the
    new quantity, whatever had been used of it; the other rows and the
    sales targets stay as they are. *)
Theorem update_purchase_found purchase_id data (s : Session) p :
  NoDup (purchase_ids s) ->
  In p (all_purchases s) ->
  Purchase.id p = Some purchase_id ->
  fst (Main.update_purchase purchase_id (Some data) s)
  = Returns (updated_purchase data p)
  /\ all_purchases (snd (Main.update_purchase purchase_id (Some data) s))
     = map (fun q => if other_purchase purchase_id q then q
                     else updated_purchase data q)
         (all_purchases s)
  /\ all_targets (snd (Main.update_purchase purchase_id (Some data) s))
     = all_targets s.
Proof.
  intros N Hp Hid.
  assert (I : In (Some purchase_id) (purchase_ids s)).
  { rewrite <- Hid. now apply in_map. }
  destruct (get_purchase_some _ _ I) as (o & G & Ho & Eo).
  destruct (update_purchase_run _ data _ _ G) as (s' & R & T & T' & A' & A).
  rewrite R. simpl.
  unfold purchase_ids, all_purchases in N. rewrite map_map in N.
  assert (P : p = purchase_at s o).
  { apply in_map_iff in Hp. destruct Hp as (o' & <- & Ho').
    f_equal. eapply nodup_map_inj; eauto. simpl. congruence. }
  split; [now rewrite P|]. split.
  - unfold all_purchases. rewrite T, map_map. apply map_ext_in.
    intros o' Ho'. rewrite A. unfold other_purchase.
    destruct (Nat.eqb o' o) eqn:E.
    + apply Nat.eqb_eq in E. subst o'. rewrite Eo.
      now rewrite (proj2 (same_lot_eq _ _) eq_refl).
    + destruct (same_lot (Purchase.id (purchase_at s o')) (Some purchase_id))
        eqn:E'; [|reflexivity].
      apply same_lot_eq in E'. exfalso. apply Nat.eqb_neq in E. apply E.
      eapply (nodup_map_inj (fun o => Purchase.id (purchase_at s o))); eauto.
      simpl. congruence.
  - unfold all_targets. now rewrite T', A'.
Qed.

Lemma find_same {Y} (f g : Y -> bool) l :
  (forall y, f y = g y) -> find f l = find g l.
Proof.
  intro H. induction l as [|y l IH]; simpl; [reflexivity|].
  now rewrite H, IH.
Qed.

Lemma find_app_none {Y} (f : Y -> bool) l1 l2 :
  find f l1 = None -> find f (l1 ++ l2) = find f l2.
Proof.
  induction l1 as [|y l1 IH]; simpl; [reflexivity|].
  destruct (f y); [discriminate|exact IH].
Qed.

(** X11: Sending the same update again changes nothing more: the answer and
    the rows are those of the first update. *)
Theorem update_purchase_again purchase_id data (s : Session) :
  fst (Main.update_purchase purchase_id data
         (snd (Main.update_purchase purchase_id data s)))
  = fst (Main.update_purchase purchase_id data s)
  /\ all_purchases
       (snd (Main.update_purchase purchase_id data
               (snd (Main.update_purchase purchase_id data s))))
     = all_purchases (snd (Main.update_purchase purchase_id data s)).
Proof.
  destruct (fst (get_purchase purchase_id s)) as [o|] eqn:F.
  - assert (G : get_purchase purchase_id s = (Some o, s)).
    { unfold get_purchase in *. simpl in F. now rewrite F. }
    destruct data as [data|].
    + destruct (update_purchase_run _ data _ _ G) as (s1 & R & T & _ & _ & A).
      rewrite R. simpl.
      assert (G1 : get_purchase purchase_id s1 = (Some o, s1)).
      { unfold get_purchase in *. rewrite T. inversion G as [F'].
        rewrite F'. f_equal. rewrite <- F'.
        apply find_same. intro o'. rewrite A.
        destruct (Nat.eqb o' o) eqn:E; [|reflexivity].
        apply Nat.eqb_eq in E. now subst o'. }
      destruct (update_purchase_run _ data _ _ G1)
        as (s2 & R2 & T2 & _ & _ & A2).
      rewrite R2. simpl. rewrite A, Nat.eqb_refl. split; [reflexivity|].
      unfold all_purchases. rewrite T2. apply map_ext. intro o'.
      rewrite A2. destruct (Nat.eqb o' o) eqn:E; [|reflexivity].
      apply Nat.eqb_eq in E. subst o'. now rewrite (A o), Nat.eqb_refl.
    + assert (U : Main.update_purchase purchase_id None s
                  = (Raises AttributeError, s)).
      { unfold Main.update_purchase, bind. now rewrite G. }
      rewrite U. cbn [fst snd]. now rewrite U.
  - assert (G : get_purchase purchase_id s = (None, s)).
    { unfold get_purchase in *. simpl in F. now rewrite F. }
    assert (U : Main.update_purchase purchase_id data s
                = (Raises (HTTPException 404 "Purchase not found"), s)).
    { unfold Main.update_purchase, bind. now rewrite G. }
    rewrite U. cbn [fst snd]. now rewrite U.
Qed.

Lemma delete_purchase_run purchase_id (s : Session) o :
  get_purchase purchase_id s = (Some o, s) ->
  Main.delete_purchase purchase_id s
  = (Returns [("status", "deleted")%string],
     {| purchases_table :=
          filter (fun o' => negb (Nat.eqb o' o)) (purchases_table s);
        purchase_at := purchase_at s;
        targets_table := targets_table s;
        target_at := target_at s |}).
Proof.
  intro G. unfold Main.delete_purchase, bind. now rewrite G.
Qed.

Lemma delete_purchase_rows purchase_id (s : Session) :
  NoDup (purchase_ids s) ->
  In (Some purchase_id) (purchase_ids s) ->
  all_purchases (snd (Main.delete_purchase purchase_id s))
  = filter (other_purchase purchase_id) (all_purchases s)
  /\ ~ In (Some purchase_id)
        (purchase_ids (snd (Main.delete_purchase purchase_id s))).
Proof.
  intros N I. destruct (get_purchase_some _ _ I) as (o & G & Ho & Eo).
  rewrite (delete_purchase_run _ _ _ G). cbn [fst snd].
  unfold purchase_ids, all_purchases in N. rewrite map_map in N.
  assert (E : all_purchases
                {| purchases_table :=
                     filter (fun o' => negb (Nat.eqb o' o)) (purchases_table s);
                   purchase_at := purchase_at s;
                   targets_table := targets_table s;
                   target_at := target_at s |}
              = filter (other_purchase purchase_id) (all_purchases s)).
  { unfold all_purchases. cbn [purchases_table purchase_at].
    apply filter_on_key.
    intros o' Ho'. unfold other_purchase. f_equal.
    destruct (Nat.eqb o' o) eqn:E.
    - apply Nat.eqb_eq in E. subst o'. rewrite Eo. symmetry.
      now apply same_lot_eq.
    - symmetry.
      destruct (same_lot (Purchase.id (purchase_at s o')) (Some purchase_id))
        eqn:E'; [|reflexivity].
      apply same_lot_eq in E'. exfalso. apply Nat.eqb_neq in E. apply E.
      eapply (nodup_map_inj (fun o => Purchase.id (purchase_at s o))); eauto.
      simpl. congruence. }
  split; [exact E|].
  unfold purchase_ids. rewrite E. intro H. apply in_map_iff in H.
  destruct H as (q & Hq & H). apply filter_In in H. destruct H as [_ H].
  unfold other_purchase in H. rewrite Hq in H.
  now rewrite (proj2 (same_lot_eq _ _) eq_refl) in H.
Qed.

(** X12: [delete_purchase] removes the row of the key, and that row only; a
    second request for the same key is a 404. *)
Theorem delete_purchase_found purchase_id (s : Session) :
  NoDup (purchase_ids s) ->
  In (Some purchase_id) (purchase_ids s) ->
  fst (Main.delete_purchase purchase_id s)
  = Returns [("status", "deleted")%string]
  /\ all_purchases (snd (Main.delete_purchase purchase_id s))
     = filter (other_purchase purchase_id) (all_purchases s)
  /\ all_targets (snd (Main.delete_purchase purchase_id s)) = all_targets s
  /\ fst (Main.delete_purchase purchase_id
            (snd (Main.delete_purchase purchase_id s)))
     = Raises (HTTPException 404 "Not found").
Proof.
  intros N I. destruct (delete_purchase_rows _ _ N I) as [E Miss].
  split; [|split; [exact E|split]].
  - destruct (get_purchase_some _ _ I) as (o & G & _).
    now rewrite (delete_purchase_run _ _ _ G).
  - destruct (get_purchase_some _ _ I) as (o & G & _).
    now rewrite (delete_purchase_run _ _ _ G).
  - now rewrite (proj2 (purchase_missing purchase_id None _ Miss)).
Qed.

Lemma list_purchases_run (s : Session) :
  Main.list_purchases s = (all_purchases s, s).
Proof.
  unfold Main.list_purchases, bind, select_purchases.
  rewrite (map_db_run _ (purchase_at s)) by reflexivity.
  unfold all_purchases. f_equal. f_equal. now apply filter_all.
Qed.

Lemma add_purchase_run key data (s : Session) :
  exists s',
    Main.add_purchase key data s = (created_purchase key data, s')
    /\ purchases_table s' = purchases_table s ++ [new_ref (purchases_table s)]
    /\ targets_table s' = targets_table s
    /\ target_at s' = target_at s
    /\ purchase_at s' (new_ref (purchases_table s)) = created_purchase key data
    /\ forall o, In o (purchases_table s) -> purchase_at s' o = purchase_at s o.
Proof.
  unfold Main.add_purchase, bind, insert_purchase, purchase_attr. simpl.
  rewrite Nat.eqb_refl. eexists. split; [reflexivity|]. simpl.
  rewrite Nat.eqb_refl. repeat split.
  intros o H. destruct (Nat.eqb o (new_ref (purchases_table s))) eqn:E;
    [|reflexivity].
  apply Nat.eqb_eq in E. subst o. now apply new_ref_fresh in H.
Qed.

Lemma add_purchase_rows key data (s : Session) :
  all_purchases (snd (Main.add_purchase key data s))
  = all_purchases s ++ [created_purchase key data]
  /\ all_targets (snd (Main.add_purchase key data s)) = all_targets s.
Proof.
  destruct (add_purchase_run key data s) as (s' & R & T & T' & A' & N & A).
  rewrite R. simpl. unfold all_purchases, all_targets.
  rewrite T, T', A', map_app. simpl. rewrite N. split; [|reflexivity].
  f_equal. now apply map_ext_in.
Qed.

(** X13: [add_purchase] answers with the new purchase: the fields of the body,
    the key given by the database, and all of its quantity remaining.
    [list_purchases] then shows it beside the rows that were there, which
    are unchanged, and the sales targets are as they were. *)
Theorem add_purchase_listed key data (s : Session) :
  fst (Main.add_purchase key data s) = created_purchase key data
  /\ Permutation
       (fst (Main.list_purchases (snd (Main.add_purchase key data s))))
       (fst (Main.add_purchase key data s) :: fst (Main.list_purchases s))
  /\ all_targets (snd (Main.add_purchase key data s)) = all_targets s.
Proof.
  destruct (add_purchase_rows key data s) as [P T].
  rewrite !list_purchases_run. cbn [fst]. rewrite P.
  destruct (add_purchase_run key data s) as (s' & R & _).
  rewrite R in *. cbn [fst snd] in *. split; [reflexivity|].
  split; [|exact T]. rewrite Permutation_app_comm. reflexivity.
Qed.

(** X14: Deleting a purchase that was just added under a key not in use gives
    back the rows that were there before. *)
Theorem add_then_delete_purchase key data (s : Session) :
  ~ In (Some key) (purchase_ids s) ->
  fst (Main.delete_purchase key (snd (Main.add_purchase key data s)))
  = Returns [("status", "deleted")%string]
  /\ all_purchases
       (snd (Main.delete_purchase key (snd (Main.add_purchase key data s))))
     = all_purchases s.
Proof.
  intro N.
  destruct (add_purchase_run key data s) as (s' & R & T & T' & A' & E & A).
  rewrite R. simpl.
  assert (G : get_purchase key s' = (Some (new_ref (purchases_table s)), s')).
  { unfold get_purchase. f_equal. rewrite T, find_app_none.
    - cbn [find]. rewrite E. simpl. now rewrite Z.eqb_refl.
    - apply (find_by_key (fun o => Purchase.id (purchase_at s' o))
               same_lot (Some key) (purchases_table s) same_lot_eq).
      intro H. apply N. unfold purchase_ids, all_purchases.
      rewrite map_map. apply in_map_iff in H. destruct H as (o & H & Ho).
      apply in_map_iff. exists o. split; [|exact Ho]. now rewrite <- A. }
  unfold Main.delete_purchase, bind. rewrite G. simpl. split; [reflexivity|].
  unfold all_purchases. simpl. rewrite T, filter_fresh by apply new_ref_fresh.
  now apply map_ext_in.
Qed.

Lemma delete_purchase_ids purchase_id (s : Session) :
  exists keep,
    purchase_ids (snd (Main.delete_purchase purchase_id s))
    = map (fun o => Purchase.id (purchase_at s o))
        (filter keep (purchases_table s)).
Proof.
  unfold Main.delete_purchase, bind, get_purchase.
  destruct (find _ (purchases_table s)) as [o|]; simpl.
  - exists (fun o' => negb (Nat.eqb o' o)).
    unfold purchase_ids, all_purchases. simpl. now rewrite map_map.
  - exists (fun _ => true). unfold purchase_ids, all_purchases.
    rewrite map_map. f_equal. symmetry. now apply filter_all.
Qed.

Lemma NoDup_map_filter {Y K} (f : Y -> K) (g : Y -> bool) l :
  NoDup (map f l) -> NoDup (map f (filter g l)).
Proof.
  induction l as [|y l IH]; simpl; intro N; [constructor|].
  inversion N as [|? ? Hn N']; subst.
  destruct (g y); simpl; [|auto]. constructor; [|auto].
  intro H. apply Hn. apply in_map_iff in H. destruct H as (z & E & H).
  apply filter_In in H. rewrite <- E. apply in_map, H.
Qed.

(** X15: The primary keys of the purchases stay distinct: an update keeps the
    key of every row, whatever the body says, and a deletion only takes
    rows away. *)
Theorem purchase_keys_kept purchase_id body (s : Session) :
  NoDup (purchase_ids s) ->
  purchase_ids (snd (Main.update_purchase purchase_id body s)) = purchase_ids s
  /\ NoDup (purchase_ids (snd (Main.update_purchase purchase_id body s)))
  /\ NoDup (purchase_ids (snd (Main.delete_purchase purchase_id s))).
Proof.
  intro N.
  assert (U : purchase_ids (snd (Main.update_purchase purchase_id body s))
              = purchase_ids s).
  { destruct (fst (get_purchase purchase_id s)) as [o|] eqn:F.
    - assert (G : get_purchase purchase_id s = (Some o, s)).
      { unfold get_purchase in *. simpl in F. now rewrite F. }
      destruct body as [body|].
      + destruct (update_purchase_run _ body _ _ G) as (s1 & R & T & _ & _ & A).
        rewrite R. cbn [snd]. unfold purchase_ids, all_purchases.
        rewrite T, !map_map. apply map_ext. intro o'. rewrite A.
        destruct (Nat.eqb o' o) eqn:E; [|reflexivity].
        apply Nat.eqb_eq in E. now subst o'.
      + unfold Main.update_purchase, bind. now rewrite G.
    - assert (G : get_purchase purchase_id s = (None, s)).
      { unfold get_purchase in *. simpl in F. now rewrite F. }
      unfold Main.update_purchase, bind. now rewrite G. }
  split; [exact U|]. split; [now rewrite U|].
  destruct (delete_purchase_ids purchase_id s) as (keep & ->).
  apply NoDup_map_filter. unfold purchase_ids, all_purchases in N.
  now rewrite map_map in N.
Qed.

(** ** The endpoints together *)

Lemma stock_of_rows (s : Session) :
  stock_of s
  = filter (fun p => Qltb 0 (Purchase.remaining_quantity_kg p))
      (all_purchases s).
Proof.
  unfold stock_of, all_purchases. now rewrite filter_on_map.
Qed.




Lemma key_in_use (i : option Z) l : In i l \/ ~ In i l.
Proof.
  induction l as [|j l [IH|IH]]; simpl; [tauto| |]; [tauto|].
  destruct (same_lot j i) eqn:E.
  - apply same_lot_eq in E. auto.
  - right. intros [H|H]; [|contradiction].
    apply same_lot_eq in H. congruence.
Qed.

(** X18: A plan made right after a purchase is deleted does not draw on
    it: no step of [optimize], run on the session that [delete_purchase]
    leaves, carries its key.  (A purchase added later may be given the key
    again.) *)
Theorem deleted_purchase_unused purchase_id (year month : Z) (s : Session)
    (step : Step.t) :
  NoDup (purchase_ids s) ->
  In step
    (optimal_mix
       (fst (Main.optimize year month
               (snd (Main.delete_purchase purchase_id s))))) ->
  Step.purchase_id step <> Some purchase_id.
Proof.
  intros N H.
  assert (Miss : ~ In (Some purchase_id)
                     (purchase_ids (snd (Main.delete_purchase purchase_id s)))).
  { destruct (key_in_use (Some purchase_id) (purchase_ids s)) as [I|I].
    - apply (delete_purchase_rows _ _ N I).
    - now rewrite (proj2 (purchase_missing purchase_id None s I)). }
  rewrite optimize_run in H. cbn [fst] in H.
  destruct (step_origin _ _ _ H) as (b & Hb & _ & E & _).
  intro K. apply Miss. rewrite <- K, E. cbn [Step.purchase_id step_of].
  unfold purchase_ids. apply in_map. rewrite stock_of_rows in Hb.
  apply filter_In in Hb. apply Hb.
Qed.

(** ** The endpoints on sales targets *)

Lemma get_target_none target_id (s : Session) :
  ~ In (Some target_id) (target_ids s) ->
  get_target target_id s = (None, s).
Proof.
  intro N. unfold get_target. f_equal.
  apply (find_by_key (fun o => SalesTarget.id (target_at s o)) same_lot);
    [apply same_lot_eq|].
  unfold target_ids, all_targets in N. now rewrite map_map in N.
Qed.

Lemma get_target_some target_id (s : Session) :
  In (Some target_id) (target_ids s) ->
  exists o, get_target target_id s = (Some o, s)
            /\ In o (targets_table s)
            /\ SalesTarget.id (target_at s o) = Some target_id.
Proof.
  intro H. unfold target_ids, all_targets in H. rewrite map_map in H.
  destruct (proj2 (find_by_key (fun o => SalesTarget.id (target_at s o))
                     same_lot (Some target_id) (targets_table s)
                     same_lot_eq) H) as (o & F & I & E).
  exists o. unfold get_target. now rewrite F.
Qed.

Lemma setattr_target_loop o items : forall s : Session,
  exists s',
    for_each items tt
      (fun st item => u <- setattr_target o item ;; ret (Next u)) s
    = (tt, s')
    /\ targets_table s' = targets_table s
    /\ purchases_table s' = purchases_table s
    /\ purchase_at s' = purchase_at s
    /\ forall o',
         target_at s' o'
         = if Nat.eqb o' o then fold_left target_with items (target_at s o')
           else target_at s o'.
Proof.
  induction items as [|item items IH]; intro s.
  - exists s. repeat split. intro o'. now destruct (Nat.eqb o' o).
  - cbn [for_each]. unfold bind at 1. unfold bind at 1.
    unfold setattr_target at 1. unfold ret at 1.
    match goal with
    | |- context [for_each items tt _ ?s1] =>
        destruct (IH s1) as (s' & R & T & T' & A' & A)
    end.
    exists s'. rewrite R. cbn [purchases_table targets_table purchase_at] in *.
    repeat split; try assumption.
    intro o'. rewrite A. cbn [target_at fold_left].
    now destruct (Nat.eqb o' o).
Qed.

Lemma update_sales_target_run target_id data (s : Session) o :
  get_target target_id s = (Some o, s) ->
  exists s',
    Main.update_sales_target target_id data s
    = (Returns (updated_target data (target_at s o)), s')
    /\ targets_table s' = targets_table s
    /\ purchases_table s' = purchases_table s
    /\ purchase_at s' = purchase_at s
    /\ forall o',
         target_at s' o'
         = if Nat.eqb o' o then updated_target data (target_at s o)
           else target_at s o'.
Proof.
  intro G. unfold Main.update_sales_target. unfold bind at 1. rewrite G.
  unfold bind at 1.
  destruct (setattr_target_loop o (target_items data) s)
    as (s1 & R & T & T' & A' & A).
  rewrite R. unfold bind, commit, ret, target_attr.
  rewrite A, Nat.eqb_refl.
  exists s1. split; [reflexivity|].
  repeat split; try assumption.
  intro o'. rewrite A. destruct (Nat.eqb o' o) eqn:E; [|reflexivity].
  apply Nat.eqb_eq in E. subst o'. reflexivity.
Qed.

Lemma target_missing target_id data (s : Session) :
  ~ In (Some target_id) (target_ids s) ->
  Main.update_sales_target target_id data s
  = (Raises (HTTPException 404 "Sales target not found"), s)
  /\ Main.delete_sales_target target_id s
     = (Raises (HTTPException 404 "Not found"), s).
Proof.
  intro N. unfold Main.update_sales_target, Main.delete_sales_target, bind.
  now rewrite (get_target_none _ _ N).
Qed.

(** X19: A sales target that the table does not hold can be neither updated
    nor deleted: for a key that the database can look for, both requests
    end in a 404 and leave the session as it was. *)
Theorem target_not_found target_id data (s : Session) :
  int64 target_id = true ->
  ~ In (Some target_id) (target_ids s) ->
  Main.update_sales_target target_id data s
  = (Raises (HTTPException 404 "Sales target not found"), s)
  /\ Main.delete_sales_target target_id s
     = (Raises (HTTPException 404 "Not found"), s).
Proof.
  intros _ N. split; apply (target_missing target_id data s N).
Qed.

(** X20: With a month and a year that the database can hold,
    [update_sales_target] replaces the fields of the target by those of the
    body and keeps its primary key; the other targets and the purchases
    stay as they are. *)
Theorem update_sales_target_found target_id data (s : Session) t :
  int64 (SalesTargetCreate.month data) = true ->
  int64 (SalesTargetCreate.year data) = true ->
  NoDup (target_ids s) ->
  In t (all_targets s) ->
  SalesTarget.id t = Some target_id ->
  fst (Main.update_sales_target target_id data s)
  = Returns (updated_target data t)
  /\ all_targets (snd (Main.update_sales_target target_id data s))
     = map (fun q => if other_target target_id q then q
                     else updated_target data q)
         (all_targets s)
  /\ all_purchases (snd (Main.update_sales_target target_id data s))
     = all_purchases s.
Proof.
  intros _ _ N Ht Hid.
  assert (I : In (Some target_id) (target_ids s)).
  { rewrite <- Hid. now apply in_map. }
  destruct (get_target_some _ _ I) as (o & G & Ho & Eo).
  destruct (update_sales_target_run _ data _ _ G)
    as (s' & R & T & T' & A' & A).
  rewrite R. cbn [fst snd].
  unfold target_ids, all_targets in N. rewrite map_map in N.
  assert (P : t = target_at s o).
  { apply in_map_iff in Ht. destruct Ht as (o' & <- & Ho').
    f_equal. eapply nodup_map_inj; eauto. simpl. congruence. }
  split; [now rewrite P|]. split.
  - unfold all_targets. rewrite T, map_map. apply map_ext_in.
    intros o' Ho'. rewrite A. unfold other_target.
    destruct (Nat.eqb o' o) eqn:E.
    + apply Nat.eqb_eq in E. subst o'. rewrite Eo.
      now rewrite (proj2 (same_lot_eq _ _) eq_refl).
    + destruct (same_lot (SalesTarget.id (target_at s o')) (Some target_id))
        eqn:E'; [|reflexivity].
      apply same_lot_eq in E'. exfalso. apply Nat.eqb_neq in E. apply E.
      eapply (nodup_map_inj (fun o => SalesTarget.id (target_at s o))); eauto.
      simpl. congruence.
  - unfold all_purchases. now rewrite T', A'.
Qed.

Lemma delete_sales_target_run target_id (s : Session) o :
  get_target target_id s = (Some o, s) ->
  Main.delete_sales_target target_id s
  = (Returns [("status", "deleted")%string],
     {| purchases_table := purchases_table s;
        purchase_at := purchase_at s;
        targets_table :=
          filter (fun o' => negb (Nat.eqb o' o)) (targets_table s);
        target_at := target_at s |}).
Proof.
  intro G. unfold Main.delete_sales_target, bind. now rewrite G.
Qed.

Lemma delete_sales_target_rows target_id (s : Session) :
  NoDup (target_ids s) ->
  In (Some target_id) (target_ids s) ->
  all_targets (snd (Main.delete_sales_target target_id s))
  = filter (other_target target_id) (all_targets s)
  /\ ~ In (Some target_id)
        (target_ids (snd (Main.delete_sales_target target_id s))).
Proof.
  intros N I. destruct (get_target_some _ _ I) as (o & G & Ho & Eo).
  rewrite (delete_sales_target_run _ _ _ G). cbn [fst snd].
  unfold target_ids, all_targets in N. rewrite map_map in N.
  assert (E : all_targets
                {| purchases_table := purchases_table s;
                   purchase_at := purchase_at s;
                   targets_table :=
                     filter (fun o' => negb (Nat.eqb o' o)) (targets_table s);
                   target_at := target_at s |}
              = filter (other_target target_id) (all_targets s)).
  { unfold all_targets. cbn [targets_table target_at].
    apply filter_on_key.
    intros o' Ho'. unfold other_target. f_equal.
    destruct (Nat.eqb o' o) eqn:E.
    - apply Nat.eqb_eq in E. subst o'. rewrite Eo. symmetry.
      now apply same_lot_eq.
    - symmetry.
      destruct (same_lot (SalesTarget.id (target_at s o')) (Some target_id))
        eqn:E'; [|reflexivity].
      apply same_lot_eq in E'. exfalso. apply Nat.eqb_neq in E. apply E.
      eapply (nodup_map_inj (fun o => SalesTarget.id (target_at s o))); eauto.
      simpl. congruence. }
  split; [exact E|].
  unfold target_ids. rewrite E. intro H. apply in_map_iff in H.
  destruct H as (q & Hq & H). apply filter_In in H. destruct H as [_ H].
  unfold other_target in H. rewrite Hq in H.
  now rewrite (proj2 (same_lot_eq _ _) eq_refl) in H.
Qed.

(** X21: [delete_sales_target] removes the target of the key, and that target
    only; a second request for the same key is a 404. *)
Theorem delete_sales_target_found target_id (s : Session) :
  NoDup (target_ids s) ->
  In (Some target_id) (target_ids s) ->
  fst (Main.delete_sales_target target_id s)
  = Returns [("status", "deleted")%string]
  /\ all_targets (snd (Main.delete_sales_target target_id s))
     = filter (other_target target_id) (all_targets s)
  /\ all_purchases (snd (Main.delete_sales_target target_id s))
     = all_purchases s
  /\ fst (Main.delete_sales_target target_id
            (snd (Main.delete_sales_target target_id s)))
     = Raises (HTTPException 404 "Not found").
Proof.
  intros N I. destruct (delete_sales_target_rows _ _ N I) as [E Miss].
  split; [|split; [exact E|split]].
  - destruct (get_target_some _ _ I) as (o & G & _).
    now rewrite (delete_sales_target_run _ _ _ G).
  - destruct (get_target_some _ _ I) as (o & G & _).
    now rewrite (delete_sales_target_run _ _ _ G).
  - now rewrite (proj2 (target_missing target_id
                          (SalesTargetCreate.mk "" 0 0 0) _ Miss)).
Qed.

Lemma add_target_run key data (s : Session) :
  exists s',
    Main.add_target key data s = (created_target key data, s')
    /\ targets_table s' = targets_table s ++ [new_ref (targets_table s)]
    /\ purchases_table s' = purchases_table s
    /\ purchase_at s' = purchase_at s
    /\ target_at s' (new_ref (targets_table s)) = created_target key data
    /\ forall o, In o (targets_table s) -> target_at s' o = target_at s o.
Proof.
  unfold Main.add_target, bind, insert_target, target_attr.
  cbn [target_at]. rewrite Nat.eqb_refl. eexists. split; [reflexivity|].
  cbn [purchases_table targets_table purchase_at target_at].
  rewrite Nat.eqb_refl. repeat split.
  intros o H. destruct (Nat.eqb o (new_ref (targets_table s))) eqn:E;
    [|reflexivity].
  apply Nat.eqb_eq in E. subst o. now apply new_ref_fresh in H.
Qed.

Lemma add_target_rows key data (s : Session) :
  all_targets (snd (Main.add_target key data s))
  = all_targets s ++ [created_target key data]
  /\ stock_of (snd (Main.add_target key data s)) = stock_of s.
Proof.
  destruct (add_target_run key data s) as (s' & R & T & T' & A' & N & A).
  rewrite R. cbn [snd]. unfold all_targets, stock_of.
  rewrite T, T', A', map_app. cbn [map]. rewrite N. split; [|reflexivity].
  f_equal. now apply map_ext_in.
Qed.

Lemma targets_of_rows year month (s : Session) :
  targets_of year month s
  = filter (fun t => Z.eqb (SalesTarget.year t) year
                     && Z.eqb (SalesTarget.month t) month)
      (all_targets s).
Proof.
  unfold targets_of, all_targets. now rewrite filter_on_map.
Qed.


(** X23: A sales target added for another month leaves the plan of this month
    as it was. *)
Theorem add_target_elsewhere key data (year month : Z) (s : Session) :
  (SalesTargetCreate.year data, SalesTargetCreate.month data)
  <> (year, month) ->
  fst (Main.optimize year month (snd (Main.add_target key data s)))
  = fst (Main.optimize year month s).
Proof.
  intro D. rewrite !optimize_run. cbn [fst].
  rewrite !targets_of_rows.
  destruct (add_target_rows key data s) as [-> ->].
  rewrite filter_app. cbn [filter created_target SalesTarget.year
                             SalesTarget.month].
  destruct (Z.eqb (SalesTargetCreate.year data) year) eqn:Y;
    [destruct (Z.eqb (SalesTargetCreate.month data) month) eqn:M|];
    simpl; rewrite ?app_nil_r; try reflexivity.
  apply Z.eqb_eq in Y, M. exfalso. apply D. congruence.
Qed.

(** ** The properties at work on the sample session *)

(** Closed facts about the sample session. *)
Ltac on_sample :=
  repeat match goal with
    | |- _ /\ _ => split
    | |- NoDup _ => vm_compute; repeat constructor
    | |- ~ _ => vm_compute; intuition discriminate
    | |- _ <> _ => vm_compute; intuition discriminate
    | |- In _ _ => vm_compute; auto 10
    | |- (_ <= _)%Q => vm_compute; discriminate
    | |- _ = _ => reflexivity
    | |- _ = _ => vm_compute; reflexivity
    end.


Lemma whole_lots_but_last_witness :
  exists b, In b demo_lots
    /\ Purchase.alloy_type b = "steel"%string
    /\ Purchase.id b = Some 2%Z
    /\ 50 = Purchase.remaining_quantity_kg b.
Proof.
  apply (whole_lots_but_last demo_demand demo_lots "steel"
           [ Step.mk "steel" (Some 2%Z) 50 3 150 ]
           (Step.mk "steel" (Some 1%Z) 50 5 250)
           ltac:(on_sample) (Step.mk "steel" (Some 2%Z) 50 3 150)).
  on_sample.
Defined.

Lemma purchase_not_found_witness :
  Main.update_purchase 9 (Some demo_purchase) demo_session
  = (Raises (HTTPException 404 "Purchase not found"), demo_session)
  /\ Main.delete_purchase 9 demo_session
     = (Raises (HTTPException 404 "Not found"), demo_session).
Proof.
  apply (purchase_not_found 9 (Some demo_purchase) demo_session);
    on_sample.
Defined.

Lemma update_purchase_without_body_witness :
  Main.update_purchase 3 None demo_session
  = (Raises AttributeError, demo_session).
Proof.
  apply (update_purchase_without_body 3 demo_session). on_sample.
Defined.

Lemma update_purchase_found_witness :
  fst (Main.update_purchase 3 (Some demo_purchase) demo_session)
  = Returns (updated_purchase demo_purchase (lot 3 "copper" 2 10))
  /\ all_purchases
       (snd (Main.update_purchase 3 (Some demo_purchase) demo_session))
     = map (fun q => if other_purchase 3 q then q
                     else updated_purchase demo_purchase q)
         (all_purchases demo_session)
  /\ all_targets
       (snd (Main.update_purchase 3 (Some demo_purchase) demo_session))
     = all_targets demo_session.
Proof.
  apply (update_purchase_found 3 demo_purchase demo_session
           (lot 3 "copper" 2 10)); on_sample.
Defined.

Lemma delete_purchase_found_witness :
  fst (Main.delete_purchase 2 demo_session)
  = Returns [("status", "deleted")%string]
  /\ all_purchases (snd (Main.delete_purchase 2 demo_session))
     = filter (other_purchase 2) (all_purchases demo_session)
  /\ all_targets (snd (Main.delete_purchase 2 demo_session))
     = all_targets demo_session
  /\ fst (Main.delete_purchase 2 (snd (Main.delete_purchase 2 demo_session)))
     = Raises (HTTPException 404 "Not found").
Proof.
  apply (delete_purchase_found 2 demo_session); on_sample.
Defined.

Lemma add_then_delete_purchase_witness :
  fst (Main.delete_purchase 9
         (snd (Main.add_purchase 9 demo_purchase demo_session)))
  = Returns [("status", "deleted")%string]
  /\ all_purchases
       (snd (Main.delete_purchase 9
               (snd (Main.add_purchase 9 demo_purchase demo_session))))
     = all_purchases demo_session.
Proof.
  apply (add_then_delete_purchase 9 demo_purchase demo_session). on_sample.
Defined.

Lemma purchase_keys_kept_witness :
  purchase_ids
    (snd (Main.update_purchase 3 (Some demo_purchase) demo_session))
  = purchase_ids demo_session
  /\ NoDup (purchase_ids
              (snd (Main.update_purchase 3 (Some demo_purchase) demo_session)))
  /\ NoDup (purchase_ids (snd (Main.delete_purchase 3 demo_session))).
Proof.
  apply (purchase_keys_kept 3 (Some demo_purchase) demo_session). on_sample.
Defined.

Lemma deleted_purchase_unused_witness :
  Step.purchase_id (Step.mk "steel" (Some 1%Z) 60 5 300) <> Some 2%Z.
Proof.
  apply (deleted_purchase_unused 2 2024 1 demo_session
           (Step.mk "steel" (Some 1%Z) 60 5 300)); on_sample.
Defined.

Lemma target_not_found_witness :
  Main.update_sales_target 9 demo_target demo_session
  = (Raises (HTTPException 404 "Sales target not found"), demo_session)
  /\ Main.delete_sales_target 9 demo_session
     = (Raises (HTTPException 404 "Not found"), demo_session).
Proof.
  apply (target_not_found 9 demo_target demo_session); on_sample.
Defined.

Lemma update_sales_target_found_witness :
  fst (Main.update_sales_target 2 demo_target demo_session)
  = Returns (updated_target demo_target (target_row 2 "copper" 30 1 2024))
  /\ all_targets (snd (Main.update_sales_target 2 demo_target demo_session))
     = map (fun q => if other_target 2 q then q
                     else updated_target demo_target q)
         (all_targets demo_session)
  /\ all_purchases (snd (Main.update_sales_target 2 demo_target demo_session))
     = all_purchases demo_session.
Proof.
  apply (update_sales_target_found 2 demo_target demo_session
           (target_row 2 "copper" 30 1 2024)); on_sample.
Defined.

Lemma delete_sales_target_found_witness :
  fst (Main.delete_sales_target 4 demo_session)
  = Returns [("status", "deleted")%string]
  /\ all_targets (snd (Main.delete_sales_target 4 demo_session))
     = filter (other_target 4) (all_targets demo_session)
  /\ all_purchases (snd (Main.delete_sales_target 4 demo_session))
     = all_purchases demo_session
  /\ fst (Main.delete_sales_target 4
            (snd (Main.delete_sales_target 4 demo_session)))
     = Raises (HTTPException 404 "Not found").
Proof.
  apply (delete_sales_target_found 4 demo_session); on_sample.
Defined.

Lemma add_target_elsewhere_witness :
  fst (Main.optimize 2024 1 (snd (Main.add_target 9 demo_target demo_session)))
  = fst (Main.optimize 2024 1 demo_session).
Proof.
  apply (add_target_elsewhere 9 demo_target 2024 1 demo_session). on_sample.
Defined.
